(** * Scikit-learn pipelines on SageMaker: the three scripts of the notebook

    The notebook [sklearn-pipelines.ipynb] writes three Python scripts with
    [%%writefile]: [sklearn_pipeline.py] (the monolithic variant),
    [preprocessing.py] and [training.py] (the two-stage workflow).  This file
    embeds the three scripts as state-passing programs over a file system and
    proves the properties of the hand-off contract between them.

    The scripts are sequential glue over pandas, scikit-learn, joblib, numpy
    and argparse.  What those libraries compute (floating-point scaling, the
    random forest, the pseudo-random permutation, the byte formats of CSV and
    joblib files) is kept abstract in the class [Sklearn]; what they do with
    it (which rows are selected, what is fitted before what, what raises, what
    is written where) is written out. *)

From stdpp Require Import gmap strings list pretty.
From Stdlib Require Import Ascii QArith.

Open Scope string_scope.
Open Scope list_scope.
Open Scope Z_scope.

(** ** Python results *)

Inductive exn :=
| FileNotFoundError
| KeyError
| ValueError
| TypeError
| AttributeError
| NotFittedError
| ParserError
| UnpicklingError
| IndexError
| SameFileError
| SystemExit.

Inductive result (A : Type) :=
| Ok (a : A)
| Raise (e : exn).
Arguments Ok {A} a.
Arguments Raise {A} e.

#[global] Instance result_ret : MRet result := fun A a => Ok a.
#[global] Instance result_bind : MBind result := fun A B f r =>
  match r with
  | Ok a => f a
  | Raise e => Raise e
  end.

Definition of_option {A} (e : exn) (o : option A) : result A :=
  match o with
  | Some a => Ok a
  | None => Raise e
  end.

(** [mapR f l] runs [f] on the elements from left to right and stops at the
    first exception. *)
Fixpoint mapR {A B} (f : A -> result B) (l : list A) : result (list B) :=
  match l with
  | [] => Ok []
  | a :: l' =>
      match f a with
      | Raise e => Raise e
      | Ok b =>
          match mapR f l' with
          | Raise e => Raise e
          | Ok bs => Ok (b :: bs)
          end
      end
  end.

(** ** [os.path.join] (posixpath, two arguments) *)

Fixpoint endswith_slash (s : string) : bool :=
  match s with
  | EmptyString => false
  | String c EmptyString => bool_decide (c = "/"%char)
  | String _ s' => endswith_slash s'
  end.

Module os_path.

Definition join (a b : string) : string :=
  if String.prefix "/" b then b
  else if bool_decide (a = "") || endswith_slash a then a +:+ b
  else a +:+ "/" +:+ b.

End os_path.

(** A directory argument may be [None] (an unset environment variable used
    as an argparse default); [os.path.join(None, ...)] raises [TypeError]. *)
Definition join_dir (d : option string) (f : string) : result string :=
  match d with
  | Some a => Ok (os_path.join a f)
  | None => Raise TypeError
  end.

(** ** [argparse]: [add_argument("--flag", type=..., default=...)] and
    [parse_known_args]

    The fragment of [ArgumentParser] the scripts use: only long options
    taking one value, no positionals.  A token is classified as in
    [_parse_optional]; unknown tokens go to the leftover list, which every
    script discards ([args, _ = _parse_args()]), so only the namespace is
    returned.  [None] is [parser.error] (exit status 2). *)

Definition is_digit (c : ascii) : bool :=
  (48 <=? nat_of_ascii c)%nat && (nat_of_ascii c <=? 57)%nat.

Fixpoint all_digits (s : string) : bool :=
  match s with
  | EmptyString => true
  | String c s' => is_digit c && all_digits s'
  end.

Definition digits1 (s : string) : bool :=
  negb (bool_decide (s = "")) && all_digits s.

Fixpoint digits_value (acc : Z) (s : string) : Z :=
  match s with
  | EmptyString => acc
  | String c s' => digits_value (10 * acc + (Z.of_nat (nat_of_ascii c) - 48)) s'
  end.

(** [int(s)] for an optional sign followed by decimal digits. *)
Definition int_of_string (s : string) : option Z :=
  match s with
  | String "-"%char s' => if digits1 s' then Some (- digits_value 0 s') else None
  | String "+"%char s' => if digits1 s' then Some (digits_value 0 s') else None
  | _ => if digits1 s then Some (digits_value 0 s) else None
  end.

(** [s.split(c, 1)] when [c] occurs in [s]. *)
Fixpoint split_at (c : ascii) (s : string) : option (string * string) :=
  match s with
  | EmptyString => None
  | String d s' =>
      if bool_decide (d = c) then Some ("", s')
      else match split_at c s' with
           | Some (l, r) => Some (String d l, r)
           | None => None
           end
  end.

Fixpoint contains_char (c : ascii) (s : string) : bool :=
  match s with
  | EmptyString => false
  | String d s' => bool_decide (d = c) || contains_char c s'
  end.

(** [_negative_number_matcher]: [^-\d+$|^-\d*\.\d+$]. *)
Definition negative_number (s : string) : bool :=
  match s with
  | String "-"%char s' =>
      digits1 s' ||
      match split_at "."%char s' with
      | Some (l, r) => all_digits l && digits1 r
      | None => false
      end
  | _ => false
  end.

Inductive token :=
| TValue                                        (* pattern letter A *)
| TOption (flag : string) (explicit : option string)
| TAmbiguous                                    (* parser.error *)
| TUnknown.                                     (* pattern letter O, no action *)

Section Argparse.

Context {A : Type}.
(** the option strings registered by [add_argument], in order *)
Variable option_strings : list string.
(** the store action of an option: convert with its [type] and set its
    [dest]; [None] when the conversion raises *)
Variable store : string -> string -> A -> option A.

Definition option_matches (prefix : string) : list string :=
  filter (fun o => String.prefix prefix o = true) option_strings.

(** [_parse_optional] for a parser whose option strings all start with two
    dashes (so a single-dash token never abbreviates one). *)
Definition parse_optional (arg : string) : token :=
  match arg with
  | EmptyString => TValue
  | String c rest =>
      if negb (bool_decide (c = "-"%char)) then TValue
      else if bool_decide (arg ∈ option_strings) then TOption arg None
      else if bool_decide (rest = "") then TValue
      else
        let by_eq :=
          match split_at "="%char arg with
          | Some (o, v) =>
              if bool_decide (o ∈ option_strings) then Some (TOption o (Some v)) else None
          | None => None
          end in
        match by_eq with
        | Some t => t
        | None =>
            let abbreviated :=
              if String.prefix "--" arg then
                match split_at "="%char arg with
                | Some (o, v) => Some (option_matches o, Some v)
                | None => Some (option_matches arg, None)
                end
              else None in
            match abbreviated with
            | Some (_ :: _ :: _, _) => TAmbiguous
            | Some ([o], v) => TOption o v
            | _ =>
                if negative_number arg then TValue
                else if contains_char " "%char arg then TValue
                else TUnknown
            end
        end
  end.

(** The parsing loop.  [literal] is set after the token [--], from where
    every token is a positional value; [pending] is an option that still
    waits for its one value. *)
Fixpoint parse_loop (literal : bool) (pending : option string)
    (argv : list string) (ns : A) : option A :=
  match argv with
  | [] =>
      match pending with
      | Some _ => None
      | None => Some ns
      end
  | a :: rest =>
      if literal then parse_loop true None rest ns
      else if bool_decide (a = "--") then
        match pending with
        | Some _ => None
        | None => parse_loop true None rest ns
        end
      else
        match parse_optional a, pending with
        | TAmbiguous, _ => None
        | TValue, Some o =>
            match store o a ns with
            | Some ns' => parse_loop false None rest ns'
            | None => None
            end
        | TValue, None => parse_loop false None rest ns
        | TOption o (Some v), None =>
            match store o v ns with
            | Some ns' => parse_loop false None rest ns'
            | None => None
            end
        | TOption o None, None => parse_loop false (Some o) rest ns
        | TOption _ _, Some _ => None
        | TUnknown, Some _ => None
        | TUnknown, None => parse_loop false None rest ns
        end
  end.

Definition parse_known_args (defaults : A) (argv : list string) : option A :=
  parse_loop false None argv defaults.

(** A token selects [flag] when the parser resolves it to that option. *)
Definition selects (flag arg : string) : Prop :=
  exists v, parse_optional arg = TOption flag v.

End Argparse.

(** A command line supplies a flag when one of its tokens is resolved to
    that option (spelled out, abbreviated, or with [=value]). *)
Definition supplies (option_strings : list string) (flag : string)
    (argv : list string) : Prop :=
  Exists (selects option_strings flag) argv.

(** ** The libraries behind the scripts *)

(** The three estimator classes the scripts construct, over the fitted
    state of a scaler and of a forest.  An unfitted estimator carries
    [None]. *)
#[warnings="-register-all"]
Inductive estimator (S F : Type) :=
| StandardScaler (fitted : option S)
| RandomForestClassifier (n_estimators min_samples_leaf : Z)
    (n_jobs : option Z) (fitted : option F)
| Pipeline (steps : list (string * estimator S F)).
Arguments StandardScaler {S F} fitted.
Arguments RandomForestClassifier {S F} n_estimators min_samples_leaf n_jobs fitted.
Arguments Pipeline {S F} steps.

(** [Carriers] names the data the libraries keep opaque: a table cell (a
    float64, an int64 or a string, as pandas reads it), the bytes of a file,
    the fitted state of a [StandardScaler] ([mean_], [scale_]), a fitted
    forest, and the state of a numpy random generator. *)
Class Carriers := {
  V : Type;
  V_eq_dec :: EqDecision V;
  nan : V;
  bytes : Type;
  scaler_state : Type;
  forest : Type;
  rng : Type
}.

Abbreviation est := (estimator scaler_state forest).

(** A table as the CSV codec sees it: the header line and the data rows. *)
Definition csv_table `{Carriers} : Type := (list string * list (list V))%type.

Class Sklearn `{Carriers} := {
(** [numpy.random.RandomState(seed)] and [rng.permutation(n)] *)
RandomState : Z -> rng;
permutation : rng -> nat -> list nat;
(** [StandardScaler.fit] on the rows of a 2-d array ([None]: [check_array]
    rejects it), and the element-wise scaling of one row *)
scaler_fit : list (list V) -> option scaler_state;
scaler_row : scaler_state -> list V -> option (list V);
(** [RandomForestClassifier.fit] with its hyperparameters and the random
    generator it draws from, and the vote of the forest on one row *)
forest_fit : Z -> Z -> rng -> list (list V) -> list V -> option forest;
forest_row : forest -> list V -> option V;
(** the text of a CSV file and the pandas parser *)
csv_encode : csv_table -> bytes;
csv_decode : bytes -> option csv_table;
(** [joblib.dump] and [joblib.load] *)
pickle_dumps : est -> bytes;
pickle_loads : bytes -> option est
}.

(** What the proofs assume of the libraries. *)
Class SklearnLaws `{Sklearn} : Prop := {
  permutation_perm : forall g n, Permutation (permutation g n) (seq 0 n);
  scaler_row_length : forall s row r, scaler_row s row = Some r -> length r = length row;
  pickle_roundtrip : forall e, pickle_loads (pickle_dumps e) = Some e;
  csv_roundtrip : forall t, csv_decode (csv_encode t) = Some t
}.

(** A Python float that is either a rational or not-a-number; the metric
    is a ratio of two counts. *)
Inductive pyfloat :=
| Finite (q : Q)
| NaN.

Section Model.

Context `{Sklearn}.

Definition matrix : Type := list (list V).

(** *** The process state: files, the global numpy generator, stdout *)

Record world := {
  fs : gmap string bytes;
  np_random : rng;
  stdout : list pyfloat
}.

Definition py (A : Type) : Type := world -> result A * world.

#[global] Instance py_ret : MRet py := fun A a w => (Ok a, w).
#[global] Instance py_bind : MBind py := fun A B f m w =>
  match m w with
  | (Ok a, w') => f a w'
  | (Raise e, w') => (Raise e, w')
  end.

Definition lift {A} (r : result A) : py A := fun w => (r, w).

Definition read_file (path : string) : py bytes := fun w =>
  (of_option FileNotFoundError (fs w !! path), w).

Definition write_file (path : string) (b : bytes) : py unit := fun w =>
  (Ok tt, {| fs := <[path := b]> (fs w); np_random := np_random w; stdout := stdout w |}).

(** [print(f"Model Accuracy: {x}")] *)
Definition print_accuracy (x : pyfloat) : py unit := fun w =>
  (Ok tt, {| fs := fs w; np_random := np_random w; stdout := stdout w ++ [x] |}).

(** [check_random_state(None)] is the global generator of the process. *)
Definition global_random : py rng := fun w => (Ok (np_random w), w).

(** [shutil.copy(src, dst)] between two file paths. *)
Definition copy (src dst : string) : py unit :=
  b ← read_file src;
  if bool_decide (src = dst) then lift (Raise SameFileError)
  else write_file dst b.

(** *** pandas *)

Inductive label :=
| LStr (s : string)
| LInt (n : nat).

#[global] Instance label_eq_dec : EqDecision label.
Proof. solve_decision. Defined.

(** A frame with the default [RangeIndex]: the column labels and the rows. *)
Record DataFrame := {
  columns : list label;
  values : matrix
}.

Record Series := {
  name : label;
  cells : list V
}.

Definition label_str (l : label) : string :=
  match l with
  | LStr s => s
  | LInt n => pretty n
  end.

(** pandas pads a short row with NaN and rejects a long one. *)
Definition pad_row (k : nat) (row : list V) : list V :=
  row ++ replicate (k - length row) nan.

Definition frame_of_csv (t : csv_table) : result DataFrame :=
  let k := length t.1 in
  if forallb (fun row => (length row <=? k)%nat) t.2
  then Ok {| columns := LStr <$> t.1; values := pad_row k <$> t.2 |}
  else Raise ParserError.

Definition read_csv (path : string) : py DataFrame :=
  b ← read_file path;
  lift (t ← of_option ParserError (csv_decode b); frame_of_csv t).

(** [df.to_csv(path, index=False)] *)
Definition to_csv (df : DataFrame) (path : string) : py unit :=
  write_file path (csv_encode (label_str <$> columns df, values df)).

Definition keep_cells (l : label) (cols : list label) (row : list V) : list V :=
  snd <$> filter (fun p => p.1 <> l) (zip cols row).

(** [df.drop(l, axis=1)] *)
Definition drop (l : label) (df : DataFrame) : result DataFrame :=
  if bool_decide (l ∈ columns df)
  then Ok {| columns := filter (fun c => c <> l) (columns df);
             values := keep_cells l (columns df) <$> values df |}
  else Raise KeyError.

Fixpoint position (l : label) (cols : list label) : option nat :=
  match cols with
  | [] => None
  | c :: cols' => if bool_decide (c = l) then Some 0%nat else S <$> position l cols'
  end.

(** [df.y], the attribute access to a column *)
Definition getattr (l : label) (df : DataFrame) : result Series :=
  match position l (columns df) with
  | Some j => Ok {| name := l; cells := (fun row => nth j row nan) <$> values df |}
  | None => Raise AttributeError
  end.

Definition ncols (X : matrix) : nat :=
  match X with
  | [] => 0%nat
  | row :: _ => length row
  end.

(** [pd.DataFrame(ndarray)] labels the columns 0, 1, ... *)
Definition DataFrame_of_array (X : matrix) : DataFrame :=
  {| columns := LInt <$> seq 0 (ncols X); values := X |}.

(** [pd.concat([df, s], axis=1)] of a frame and a series that carry the
    same [RangeIndex]: the rows are paired by position. *)
Definition concat_axis1 (df : DataFrame) (s : Series) : DataFrame :=
  {| columns := columns df ++ [name s];
     values := zip_with (fun (row : list V) v => row ++ [v]) (values df) (cells s) |}.

(** [df.iloc[idx]] *)
Definition iloc (df : DataFrame) (idx : list nat) : result DataFrame :=
  rows ← mapR (fun i => of_option IndexError (values df !! i)) idx;
  Ok {| columns := columns df; values := rows |}.

(** *** scikit-learn *)

(** [ceil(0.25 * n)] *)
Definition n_test_of (n : nat) : nat := ((n + 3) / 4)%nat.

(** [ShuffleSplit] with the default sizes of [train_test_split]:
    [test_size = 0.25], [n_test = ceil(test_size * n)],
    [n_train = n - n_test]; the indices are those of a permutation of
    [range(n)], the test indices first. *)
Definition split_indices (g : rng) (n : nat) : list nat * list nat :=
  let n_test := n_test_of n in
  let n_train := (n - n_test)%nat in
  let perm := permutation g n in
  let ind_test := take n_test perm in
  let ind_train := take n_train (skipn n_test perm) in
  (ind_train, ind_test).

(** An empty train set is an error; [random_state=None] draws from the
    global generator. *)
Definition shuffle_split (n : nat) (random_state : option Z)
    : py (list nat * list nat) :=
  if bool_decide ((n - n_test_of n)%nat = 0%nat) then lift (Raise ValueError)
  else
    g ← match random_state with
        | Some seed => mret (RandomState seed)
        | None => global_random
        end;
    mret (split_indices g n).

(** [train_test_split(df, random_state=seed)] *)
Definition train_test_split (df : DataFrame) (random_state : option Z)
    : py (DataFrame * DataFrame) :=
  '(ind_train, ind_test) ← shuffle_split (length (values df)) random_state;
  train ← lift (iloc df ind_train);
  test ← lift (iloc df ind_test);
  mret (train, test).

(** [train_test_split(X, y, random_state=seed)] on two arrays: one pair
    of index lists selects from both. *)
Definition train_test_split_arrays (X : matrix) (y : list V)
    (random_state : option Z) : py (matrix * matrix * list V * list V) :=
  if bool_decide (length X = length y) then
    '(ind_train, ind_test) ← shuffle_split (length X) random_state;
    let pick {A} (a : list A) (idx : list nat) :=
      mapR (fun i => of_option IndexError (a !! i)) idx in
    X_train ← lift (pick X ind_train);
    X_test ← lift (pick X ind_test);
    y_train ← lift (pick y ind_train);
    y_test ← lift (pick y ind_test);
    mret (X_train, X_test, y_train, y_test)
  else lift (Raise ValueError).

(** [check_array] wants at least one sample. *)
Definition scaler_apply (s : scaler_state) (X : matrix) : result matrix :=
  match X with
  | [] => Raise ValueError
  | _ => mapR (fun row => of_option ValueError (scaler_row s row)) X
  end.

Definition forest_apply (f : forest) (X : matrix) : result (list V) :=
  match X with
  | [] => Raise ValueError
  | _ => mapR (fun row => of_option ValueError (forest_row f row)) X
  end.

(** [est.transform(X)]; a pipeline transforms through its steps in order. *)
Fixpoint transform (e : est) (X : matrix) {struct e} : result matrix :=
  match e with
  | StandardScaler None => Raise NotFittedError
  | StandardScaler (Some s) => scaler_apply s X
  | RandomForestClassifier _ _ _ _ => Raise AttributeError
  | Pipeline steps =>
      (fix through (l : list (string * est)) (X : matrix) : result matrix :=
         match l with
         | [] => Ok X
         | (_, s) :: l' =>
             match transform s X with
             | Ok Xt => through l' Xt
             | Raise e => Raise e
             end
         end) steps X
  end.

(** [est.predict(X)]; a pipeline transforms through all steps but the
    last and predicts with the last. *)
Fixpoint predict (e : est) (X : matrix) {struct e} : result (list V) :=
  match e with
  | StandardScaler _ => Raise AttributeError
  | RandomForestClassifier _ _ _ None => Raise NotFittedError
  | RandomForestClassifier _ _ _ (Some f) => forest_apply f X
  | Pipeline steps =>
      (fix through (l : list (string * est)) (X : matrix) : result (list V) :=
         match l with
         | [] => Raise ValueError
         | [(_, s)] => predict s X
         | (_, s) :: l' =>
             match transform s X with
             | Ok Xt => through l' Xt
             | Raise e => Raise e
             end
         end) steps X
  end.

(** [est.fit_transform(X)]: the fitted estimator (the object is updated
    in place) and the transformed rows.  [TransformerMixin.fit_transform]
    is [fit(X).transform(X)]; a pipeline fits and applies its steps in
    order and keeps the fitted steps. *)
Fixpoint fit_transform (e : est) (X : matrix) {struct e}
    : result (est * matrix) :=
  match e with
  | StandardScaler _ =>
      match scaler_fit X with
      | None => Raise ValueError
      | Some s =>
          match scaler_apply s X with
          | Ok Xt => Ok (StandardScaler (Some s), Xt)
          | Raise e => Raise e
          end
      end
  | RandomForestClassifier _ _ _ _ => Raise AttributeError
  | Pipeline steps =>
      match steps with
      | [] => Raise ValueError
      | _ =>
          match
            (fix through (l : list (string * est)) (X : matrix)
               : result (list (string * est) * matrix) :=
               match l with
               | [] => Ok ([], X)
               | (nm, s) :: l' =>
                   match fit_transform s X with
                   | Ok (s', Xt) =>
                       match through l' Xt with
                       | Ok (l'', Xt') => Ok ((nm, s') :: l'', Xt')
                       | Raise e => Raise e
                       end
                   | Raise e => Raise e
                   end
               end) steps X
          with
          | Ok (steps', Xt) => Ok (Pipeline steps', Xt)
          | Raise e => Raise e
          end
      end
  end.

(** [est.fit(X, y)], drawing from generator [g] where the estimator was
    built without [random_state]. *)
Fixpoint fit (e : est) (g : rng) (X : matrix) (y : list V) {struct e}
    : result est :=
  match e with
  | StandardScaler _ =>
      match scaler_fit X with
      | None => Raise ValueError
      | Some s => Ok (StandardScaler (Some s))
      end
  | RandomForestClassifier n m j _ =>
      match forest_fit n m g X y with
      | None => Raise ValueError
      | Some f => Ok (RandomForestClassifier n m j (Some f))
      end
  | Pipeline steps =>
      match
        (fix through (l : list (string * est)) (X : matrix)
           : result (list (string * est)) :=
           match l with
           | [] => Raise ValueError
           | [(nm, s)] =>
               match fit s g X y with
               | Ok s' => Ok [(nm, s')]
               | Raise e => Raise e
               end
           | (nm, s) :: l' =>
               match fit_transform s X with
               | Ok (s', Xt) =>
                   match through l' Xt with
                   | Ok l'' => Ok ((nm, s') :: l'')
                   | Raise e => Raise e
                   end
               | Raise e => Raise e
               end
           end) steps X
      with
      | Ok steps' => Ok (Pipeline steps')
      | Raise e => Raise e
      end
  end.

Definition count_equal (a b : list V) : nat :=
  length (filter (fun p => p.1 = p.2) (zip a b)).

(** [accuracy_score(y_true, y_pred)]: the mean of [y_true == y_pred];
    lengths must agree, and the mean of nothing is NaN. *)
Definition accuracy_score (y_true y_pred : list V) : result pyfloat :=
  if bool_decide (length y_true = length y_pred) then
    match y_true with
    | [] => Ok NaN
    | _ => Ok (Finite (Z.of_nat (count_equal y_true y_pred)
                        # Pos.of_nat (length y_true)))
    end
  else Raise ValueError.

(** [ClassifierMixin.score] *)
Definition score (e : est) (X : matrix) (y : list V) : result pyfloat :=
  p ← predict e X; accuracy_score y p.

(** *** joblib *)

Definition dump (e : est) (path : string) : py unit :=
  write_file path (pickle_dumps e).

Definition load (path : string) : py est :=
  b ← read_file path;
  lift (of_option UnpicklingError (pickle_loads b)).

End Model.

(** ** [sklearn_pipeline.py]: the monolithic variant *)

Module sklearn_pipeline.

Record args := {
  n_estimators : Z;
  min_samples_leaf : Z;
  model_dir : option string;
  train : option string;
  test : option string;
  train_file : string;
  test_file : string
}.

Definition option_strings : list string :=
  ["--n-estimators"; "--min-samples-leaf"; "--model-dir"; "--train";
   "--test"; "--train-file"; "--test-file"].

Definition defaults (environ : gmap string string) : args :=
  {| n_estimators := 10;
     min_samples_leaf := 3;
     model_dir := environ !! "SM_MODEL_DIR";
     train := environ !! "SM_CHANNEL_TRAIN";
     test := environ !! "SM_CHANNEL_TEST";
     train_file := "train.csv";
     test_file := "test.csv" |}.

Definition store (flag raw : string) (a : args) : option args :=
  if bool_decide (flag = "--n-estimators") then
    z ← int_of_string raw;
    Some {| n_estimators := z; min_samples_leaf := min_samples_leaf a;
            model_dir := model_dir a; train := train a; test := test a;
            train_file := train_file a; test_file := test_file a |}
  else if bool_decide (flag = "--min-samples-leaf") then
    z ← int_of_string raw;
    Some {| n_estimators := n_estimators a; min_samples_leaf := z;
            model_dir := model_dir a; train := train a; test := test a;
            train_file := train_file a; test_file := test_file a |}
  else if bool_decide (flag = "--model-dir") then
    Some {| n_estimators := n_estimators a; min_samples_leaf := min_samples_leaf a;
            model_dir := Some raw; train := train a; test := test a;
            train_file := train_file a; test_file := test_file a |}
  else if bool_decide (flag = "--train") then
    Some {| n_estimators := n_estimators a; min_samples_leaf := min_samples_leaf a;
            model_dir := model_dir a; train := Some raw; test := test a;
            train_file := train_file a; test_file := test_file a |}
  else if bool_decide (flag = "--test") then
    Some {| n_estimators := n_estimators a; min_samples_leaf := min_samples_leaf a;
            model_dir := model_dir a; train := train a; test := Some raw;
            train_file := train_file a; test_file := test_file a |}
  else if bool_decide (flag = "--train-file") then
    Some {| n_estimators := n_estimators a; min_samples_leaf := min_samples_leaf a;
            model_dir := model_dir a; train := train a; test := test a;
            train_file := raw; test_file := test_file a |}
  else if bool_decide (flag = "--test-file") then
    Some {| n_estimators := n_estimators a; min_samples_leaf := min_samples_leaf a;
            model_dir := model_dir a; train := train a; test := test a;
            train_file := train_file a; test_file := raw |}
  else None.

Definition _parse_args (environ : gmap string string) (argv : list string)
    : option args :=
  parse_known_args option_strings store (defaults environ) argv.

Section Script.

Context `{Sklearn}.

Definition model_fn (model_dir : string) : py est :=
  load (os_path.join model_dir "pipeline.joblib").

Definition predict_fn (input_data : matrix) (model : est)
    : result (list V) :=
  predict model input_data.

Definition main (environ : gmap string string) (argv : list string) : py unit :=
  args ← lift (of_option SystemExit (_parse_args environ argv));
  train_path ← lift (join_dir (train args) (train_file args));
  train_df ← read_csv train_path;
  X_train ← lift (drop (LStr "y") train_df);
  y_train ← lift (getattr (LStr "y") train_df);
  test_path ← lift (join_dir (test args) (test_file args));
  test_df ← read_csv test_path;
  X_test ← lift (drop (LStr "y") test_df);
  y_test ← lift (getattr (LStr "y") test_df);
  let pipe :=
    Pipeline
      [("scaler", StandardScaler None);
       ("rfc", RandomForestClassifier (n_estimators args) (min_samples_leaf args)
                 None None)] in
  g ← global_random;
  pipe ← lift (fit pipe g (values X_train) (cells y_train));
  acc ← lift (score pipe (values X_test) (cells y_test));
  print_accuracy acc;;
  out ← lift (join_dir (model_dir args) "pipeline.joblib");
  dump pipe out.

End Script.

End sklearn_pipeline.

(** ** [preprocessing.py]: the first stage *)

Module preprocessing.

Record args := {
  filepath : string;
  filename : string;
  outputpath : string
}.

Definition option_strings : list string :=
  ["--filepath"; "--filename"; "--outputpath"].

Definition defaults : args :=
  {| filepath := "/opt/ml/processing/input/";
     filename := "data.csv";
     outputpath := "/opt/ml/processing/output/" |}.

Definition store (flag raw : string) (a : args) : option args :=
  if bool_decide (flag = "--filepath") then
    Some {| filepath := raw; filename := filename a; outputpath := outputpath a |}
  else if bool_decide (flag = "--filename") then
    Some {| filepath := filepath a; filename := raw; outputpath := outputpath a |}
  else if bool_decide (flag = "--outputpath") then
    Some {| filepath := filepath a; filename := filename a; outputpath := raw |}
  else None.

Definition _parse_args (argv : list string) : option args :=
  parse_known_args option_strings store defaults argv.

Section Script.

Context `{Sklearn}.

Definition main (argv : list string) : py unit :=
  args ← lift (of_option SystemExit (_parse_args argv));
  df ← read_csv (os_path.join (filepath args) (filename args));
  X ← lift (drop (LStr "y") df);
  y ← lift (getattr (LStr "y") df);
  let pipe := Pipeline [("scaler", StandardScaler None)] in
  '(pipe, transformed) ← lift (fit_transform pipe (values X));
  let output := concat_axis1 (DataFrame_of_array transformed) y in
  '(train, test) ← train_test_split output (Some 42);
  to_csv train (os_path.join (outputpath args) "train/train.csv");;
  to_csv test (os_path.join (outputpath args) "test/test.csv");;
  dump pipe (os_path.join (outputpath args) "pipeline/preproc-pipeline.joblib").

End Script.

End preprocessing.

(** ** [training.py]: the second stage and the two hand-off functions *)

Module training.

Record args := {
  n_estimators : Z;
  min_samples_leaf : Z;
  model_dir : option string;
  train : option string;
  test : option string;
  pipeline : option string;
  train_file : string;
  test_file : string;
  pipeline_file : string
}.

Definition option_strings : list string :=
  ["--n-estimators"; "--min-samples-leaf"; "--model-dir"; "--train";
   "--test"; "--pipeline"; "--train-file"; "--test-file"; "--pipeline-file"].

Definition defaults (environ : gmap string string) : args :=
  {| n_estimators := 10;
     min_samples_leaf := 3;
     model_dir := environ !! "SM_MODEL_DIR";
     train := environ !! "SM_CHANNEL_TRAIN";
     test := environ !! "SM_CHANNEL_TEST";
     pipeline := environ !! "SM_CHANNEL_PIPELINE";
     train_file := "train.csv";
     test_file := "test.csv";
     pipeline_file := "preproc-pipeline.joblib" |}.

Definition with_hyper (n m : Z) (a : args) : args :=
  {| n_estimators := n; min_samples_leaf := m;
     model_dir := model_dir a; train := train a; test := test a;
     pipeline := pipeline a; train_file := train_file a;
     test_file := test_file a; pipeline_file := pipeline_file a |}.

Definition with_dirs (d tr te pi : option string) (a : args) : args :=
  {| n_estimators := n_estimators a; min_samples_leaf := min_samples_leaf a;
     model_dir := d; train := tr; test := te; pipeline := pi;
     train_file := train_file a; test_file := test_file a;
     pipeline_file := pipeline_file a |}.

Definition with_files (tr te pi : string) (a : args) : args :=
  {| n_estimators := n_estimators a; min_samples_leaf := min_samples_leaf a;
     model_dir := model_dir a; train := train a; test := test a;
     pipeline := pipeline a; train_file := tr; test_file := te;
     pipeline_file := pi |}.

Definition store (flag raw : string) (a : args) : option args :=
  if bool_decide (flag = "--n-estimators") then
    z ← int_of_string raw; Some (with_hyper z (min_samples_leaf a) a)
  else if bool_decide (flag = "--min-samples-leaf") then
    z ← int_of_string raw; Some (with_hyper (n_estimators a) z a)
  else if bool_decide (flag = "--model-dir") then
    Some (with_dirs (Some raw) (train a) (test a) (pipeline a) a)
  else if bool_decide (flag = "--train") then
    Some (with_dirs (model_dir a) (Some raw) (test a) (pipeline a) a)
  else if bool_decide (flag = "--test") then
    Some (with_dirs (model_dir a) (train a) (Some raw) (pipeline a) a)
  else if bool_decide (flag = "--pipeline") then
    Some (with_dirs (model_dir a) (train a) (test a) (Some raw) a)
  else if bool_decide (flag = "--train-file") then
    Some (with_files raw (test_file a) (pipeline_file a) a)
  else if bool_decide (flag = "--test-file") then
    Some (with_files (train_file a) raw (pipeline_file a) a)
  else if bool_decide (flag = "--pipeline-file") then
    Some (with_files (train_file a) (test_file a) raw a)
  else None.

Definition _parse_args (environ : gmap string string) (argv : list string)
    : option args :=
  parse_known_args option_strings store (defaults environ) argv.

Section Script.

Context `{Sklearn}.

Definition model_fn (model_dir : string) : py est :=
  preproc ← load (os_path.join model_dir "preproc.joblib");
  model ← load (os_path.join model_dir "model.joblib");
  let pipe := Pipeline [("preproc", preproc); ("model", model)] in
  mret pipe.

Definition predict_fn (input_data : matrix) (model : est)
    : result (list V) :=
  predict model input_data.

Definition main (environ : gmap string string) (argv : list string) : py unit :=
  args ← lift (of_option SystemExit (_parse_args environ argv));
  train_path ← lift (join_dir (train args) (train_file args));
  train_df ← read_csv train_path;
  test_path ← lift (join_dir (test args) (test_file args));
  test_df ← read_csv test_path;
  X_train ← lift (drop (LStr "y") train_df);
  y_train ← lift (getattr (LStr "y") train_df);
  X_test ← lift (drop (LStr "y") test_df);
  y_test ← lift (getattr (LStr "y") test_df);
  let model :=
    RandomForestClassifier (n_estimators args) (min_samples_leaf args)
      (Some (-1)) None in
  g ← global_random;
  model ← lift (fit model g (values X_train) (cells y_train));
  pred ← lift (predict model (values X_test));
  acc ← lift (accuracy_score (cells y_test) pred);
  print_accuracy acc;;
  model_path ← lift (join_dir (model_dir args) "model.joblib");
  dump model model_path;;
  src ← lift (join_dir (pipeline args) (pipeline_file args));
  dst ← lift (join_dir (model_dir args) "preproc.joblib");
  copy src dst.

End Script.

End training.

(** ** The notebook cells around the scripts *)

Module notebook.

Section Cells.

Context `{Sklearn}.

Definition labelled (X : matrix) (y : list V) : DataFrame :=
  concat_axis1 (DataFrame_of_array X) {| name := LStr "y"; cells := y |}.

(** Step 0, after [X, y = make_classification(random_state=42)]: the
    whole table and a seeded split of it are written under [/tmp]. *)
Definition generate_dataset (X : matrix) (y : list V) : py unit :=
  let data := labelled X y in
  to_csv data "/tmp/data.csv";;
  '(X_train, X_test, y_train, y_test) ← train_test_split_arrays X y (Some 0);
  let train := labelled X_train y_train in
  let test := labelled X_test y_test in
  to_csv train "/tmp/train.csv";;
  to_csv test "/tmp/test.csv".

End Cells.

(** [hyperparameters={"n-estimators": 100, "min-samples-leaf": 3}] of both
    cloud training jobs, as the platform puts them on the command line. *)
Definition hyperparameters : list string :=
  ["--n-estimators"; "100"; "--min-samples-leaf"; "3"].

(** The local test runs of the two stages. *)
Definition local_preprocessing : list string :=
  ["--filepath"; "/tmp/"; "--filename"; "data.csv"; "--outputpath"; "./temp/"].

Definition local_training : list string :=
  ["--train"; "./temp/train"; "--test"; "./temp/test";
   "--pipeline"; "./temp/pipeline"; "--model-dir"; "./temp/"].

Definition local_monolithic : list string :=
  ["--model-dir"; "."; "--train"; "/tmp/"; "--test"; "/tmp/"].

End notebook.

(** ** A small instance of the libraries, to run the scripts on

    Cells are integers; the scaler subtracts the first row it was fitted
    on; the forest votes 1 when the cells of a row sum to at least a
    threshold that depends on the hyperparameters, the labels seen and the
    generator; a generator is a number, and its permutation is the
    identity or the reversal. *)

Module toy.

Inductive file :=
| CsvFile (t : list string * list (list Z))
| JoblibFile (e : estimator (list Z) Z).

#[local] Instance carriers : Carriers := {|
  V := Z;
  nan := -1;
  bytes := file;
  scaler_state := list Z;
  forest := Z;
  rng := nat
|}.

Definition sum_cells (row : list Z) : Z := foldr Z.add 0 row.

#[local] Instance sklearn : Sklearn := {|
  RandomState := Z.to_nat;
  permutation := fun g n => if Nat.even g then reverse (seq 0 n) else seq 0 n;
  scaler_fit := fun X =>
    match X with
    | (c :: row) :: _ => Some (c :: row)
    | _ => None
    end;
  scaler_row := fun s row =>
    if bool_decide (length row = length s) then Some (zip_with Z.sub row s) else None;
  forest_fit := fun n m g X y =>
    match X with
    | [] => None
    | _ => Some (n - m + Z.of_nat g + sum_cells y)
    end;
  forest_row := fun f row => Some (if bool_decide (f <= sum_cells row) then 1 else 0);
  csv_encode := CsvFile;
  csv_decode := fun b => match b with CsvFile t => Some t | _ => None end;
  pickle_dumps := JoblibFile;
  pickle_loads := fun b => match b with JoblibFile e => Some e | _ => None end
|}.

(** The raw table of the examples: two features and the label. *)
Definition data : list string * list (list Z) :=
  (["f0"; "f1"; "y"],
   [[10; 20; 1]; [12; 25; 0]; [9; 18; 1]; [14; 30; 0]; [20; 30; 1]]).

Definition w0 : world :=
  {| fs := {["/tmp/data.csv" := CsvFile data]}; np_random := 7%nat; stdout := [] |}.

(** The same files under another state of the global generator. *)
Definition w0' : world :=
  {| fs := {["/tmp/data.csv" := CsvFile data]}; np_random := 8%nat; stdout := [] |}.

(** The two stages of the local test, one after the other. *)
Definition w1 : world := (preprocessing.main notebook.local_preprocessing w0).2.

Definition w2 : world := (training.main ∅ notebook.local_training w1).2.




(** No input file, and an input file without the column [y]. *)
Definition w_empty : world :=
  {| fs := ∅; np_random := 7%nat; stdout := [] |}.

Definition w_unlabelled : world :=
  {| fs := {["/tmp/data.csv" := CsvFile (["f0"; "f1"], [[10; 20]; [12; 25]])]};
     np_random := 7%nat; stdout := [] |}.

(** The monolithic script on the files of step 0. *)
Definition w_step0 : world :=
  (notebook.generate_dataset [[10; 20]; [12; 25]; [9; 18]; [14; 30]; [20; 30]]
     [1; 0; 1; 0; 1] w_empty).2.

End toy.

(** ** Paths that cannot name the same file

    Two strings can be suffixes of one string only when one of them ends
    with the other; [os.path.join] always ends with its second argument. *)

Definition chars (s : string) : list ascii := String.list_ascii_of_string s.

Definition can_end_alike (s t : string) : bool :=
  let k := (length (chars s) `min` length (chars t))%nat in
  bool_decide (take k (reverse (chars s)) = take k (reverse (chars t))).

(** ** Properties of computations used in the statements *)

(** A computation that reads nothing of the process state but the files:
    from two states with the same files it returns the same result and
    leaves the same files. *)
Definition fs_only `{Sklearn} {A} (m : py A) : Prop :=
  forall w1 w2, fs w1 = fs w2 ->
    (m w1).1 = (m w2).1 /\ fs (m w1).2 = fs (m w2).2.

(** A float in the closed interval from 0 to 1 (so not NaN). *)
Definition unit_interval (x : pyfloat) : Prop :=
  match x with
  | Finite q => (0 <= q)%Q /\ (q <= 1)%Q
  | NaN => False
  end.

(** A computation that prints nothing. *)
Definition quiet `{Sklearn} {A} (m : py A) : Prop :=
  forall w, stdout (m w).2 = stdout w.

(** A computation whose output is at most one accuracy, in the unit
    interval, and exactly one when it returns. *)
Definition reports `{Sklearn} {A} (m : py A) : Prop :=
  forall w, exists printed,
    stdout (m w).2 = stdout w ++ printed /\
    Forall unit_interval printed /\
    (length printed <= 1)%nat /\
    (forall a, (m w).1 = Ok a -> length printed = 1%nat).

(** ** The cells of the batch inference *)

(** [s[:-1]] *)
Fixpoint drop_last (s : string) : string :=
  match s with
  | EmptyString => ""
  | String _ EmptyString => ""
  | String c s' => String c (drop_last s')
  end.

(** [s[1:-1]] *)
Definition strip_ends (s : string) : string :=
  match s with
  | EmptyString => ""
  | String _ s' => drop_last s'
  end.

Definition cons_head (c : ascii) (pieces : list string) : list string :=
  match pieces with
  | piece :: rest => String c piece :: rest
  | [] => [String c ""]
  end.

(** [s.split(", ")]: the pieces between the occurrences of the separator,
    found from left to right. *)
Fixpoint split_comma_space (s : string) : list string :=
  match s with
  | EmptyString => [""]
  | String c s' =>
      match s' with
      | String d s'' =>
          if bool_decide (c = ","%char) && bool_decide (d = " "%char)
          then "" :: split_comma_space s''
          else cons_head c (split_comma_space s')
      | EmptyString => cons_head c (split_comma_space s')
      end
  end.

(** [", ".join(pieces)] *)
Fixpoint join_comma_space (pieces : list string) : string :=
  match pieces with
  | [] => ""
  | [p] => p
  | p :: rest => p +:+ ", " +:+ join_comma_space rest
  end.

Module batch.

(** The cell that reads the predictions of the batch transform:
    [a = r.read()[1:-1].split(", ")] and [int(x)] of every piece. *)
Definition read_predictions (text : string) : result (list Z) :=
  mapR (fun x => of_option ValueError (int_of_string x))
    (split_comma_space (strip_ends text)).

(** The text the cell expects: a bracketed list of decimal numbers. *)
Definition predictions_text (l : list Z) : string :=
  "[" +:+ join_comma_space (pretty <$> l) +:+ "]".

Section Cells.

Context `{Sklearn}.



End Cells.

End batch.

(** * Proofs *)

(** ** Results and the process monad *)

Lemma mapR_length {A B} (f : A -> result B) l bs :
  mapR f l = Ok bs -> length bs = length l.
Proof.
  revert bs. induction l as [|a l IH]; intros bs Hm; simpl in Hm.
  - by inversion Hm.
  - destruct (f a); [|done]. destruct (mapR f l); [|done].
    inversion Hm; subst. simpl. f_equal. by apply IH.
Qed.

Lemma mapR_lookup {A B} (f : A -> result B) l bs i b :
  mapR f l = Ok bs -> bs !! i = Some b ->
  exists a, l !! i = Some a /\ f a = Ok b.
Proof.
  revert bs i. induction l as [|a l IH]; intros bs i Hm Hb; simpl in Hm.
  - inversion Hm; subst. by rewrite lookup_nil in Hb.
  - destruct (f a) as [b0|] eqn:Hf; [|done].
    destruct (mapR f l) as [bs0|] eqn:Hl; [|done].
    inversion Hm; subst. destruct i as [|i]; simpl in *.
    + inversion Hb; subst. eauto.
    + eapply IH; eauto.
Qed.

Lemma mapR_Forall2 {A B} (f : A -> result B) l bs :
  mapR f l = Ok bs -> Forall2 (fun a b => f a = Ok b) l bs.
Proof.
  revert bs. induction l as [|a l IH]; intros bs Hm; simpl in Hm.
  - inversion Hm. constructor.
  - destruct (f a) as [b0|] eqn:Hf; [|done].
    destruct (mapR f l) as [bs0|] eqn:Hl; [|done].
    inversion Hm; subst. constructor; auto.
Qed.

Section Monad.

Context `{Sklearn}.

Lemma bind_Ok {A B} (m : py A) (f : A -> py B) w b w' :
  (m ≫= f) w = (Ok b, w') ->
  exists a w1, m w = (Ok a, w1) /\ f a w1 = (Ok b, w').
Proof.
  unfold mbind, py_bind. destruct (m w) as [[a|e] w1]; [eauto|done].
Qed.

Lemma lift_Ok {A} (r : result A) w a w' :
  lift r w = (Ok a, w') -> r = Ok a /\ w' = w.
Proof. unfold lift. intros Hl. by inversion Hl. Qed.

Lemma ret_Ok {A} (x : A) w a w' :
  (mret x : py A) w = (Ok a, w') -> a = x /\ w' = w.
Proof. unfold mret, py_ret. intros Hl. by inversion Hl. Qed.

Lemma result_bind_Ok {A B} (r : result A) (f : A -> result B) b :
  r ≫= f = Ok b -> exists a, r = Ok a /\ f a = Ok b.
Proof. destruct r; [eauto|done]. Qed.

Lemma of_option_Ok {A} e (o : option A) a : of_option e o = Ok a -> o = Some a.
Proof. destruct o; simpl; congruence. Qed.

Lemma read_file_Ok path w b w' :
  read_file path w = (Ok b, w') -> fs w !! path = Some b /\ w' = w.
Proof.
  unfold read_file. intros Hr. injection Hr as Hb Hw.
  split; [by eapply of_option_Ok|done].
Qed.

End Monad.

(** Splits off the first step of a successful run of a sequence of steps. *)
Tactic Notation "step" hyp(H) :=
  let a := fresh "a" in
  let w := fresh "w" in
  let Hs := fresh "Hstep" in
  apply bind_Ok in H as (a & w & Hs & H);
  try (apply lift_Ok in Hs as [Hs ->]).

Tactic Notation "step" hyp(H) "as" ident(a) ident(Hs) :=
  let w := fresh "w" in
  apply bind_Ok in H as (a & w & Hs & H);
  try (apply lift_Ok in Hs as [Hs ->]).

(** ** Strings and paths *)

Lemma chars_app (x s : string) : chars (x +:+ s) = chars x ++ chars s.
Proof. induction x as [|c x IH]; simpl; [done|]. unfold chars in *. simpl. by f_equal. Qed.

Lemma append_ne (x y s t : string) :
  can_end_alike s t = false -> x +:+ s <> y +:+ t.
Proof.
  unfold can_end_alike. intros Hc Heq. apply bool_decide_eq_false in Hc.
  apply Hc. apply (f_equal chars) in Heq. rewrite !chars_app in Heq.
  apply (f_equal reverse) in Heq. rewrite !reverse_app in Heq.
  set (k := (length (chars s) `min` length (chars t))%nat).
  apply (f_equal (take k)) in Heq.
  rewrite !take_app_le in Heq by (rewrite length_reverse; lia).
  done.
Qed.

Lemma join_ends a b : exists x, os_path.join a b = x +:+ b.
Proof.
  unfold os_path.join. destruct (String.prefix "/" b).
  - by exists "".
  - destruct (bool_decide (a = "") || endswith_slash a).
    + by exists a.
    + exists (a +:+ "/"). clear. induction a as [|c a IH]; [done|].
      change (String c (a +:+ "/" +:+ b) = String c ((a +:+ "/") +:+ b)).
      by f_equal.
Qed.

Lemma join_ne a b c d :
  can_end_alike b d = false -> os_path.join a b <> os_path.join c d.
Proof.
  intros Hc. destruct (join_ends a b) as [x ->]. destruct (join_ends c d) as [y ->].
  by apply append_ne.
Qed.

(** ** argparse: an option no token selects keeps its default *)

Section ArgparseFacts.

Context {A B : Type}.
Variable option_strings : list string.
Variable store : string -> string -> A -> option A.
Variable proj : A -> B.
Variable flag : string.
Hypothesis store_frame : forall o v ns ns',
  o <> flag -> store o v ns = Some ns' -> proj ns' = proj ns.

Lemma parse_loop_frame argv : forall literal pending ns ns',
  pending <> Some flag ->
  Forall (fun a => ~ selects option_strings flag a) argv ->
  parse_loop option_strings store literal pending argv ns = Some ns' ->
  proj ns' = proj ns.
Proof.
  induction argv as [|a rest IH]; intros literal pending ns ns' Hp Hall Hrun;
    simpl in Hrun.
  - destruct pending; [done|]. by inversion Hrun.
  - inversion Hall as [|? ? Ha Hrest]; subst.
    destruct literal; [by apply (IH true None ns ns')|].
    case_bool_decide.
    { destruct pending; [done|]. by apply (IH true None ns ns'). }
    destruct (parse_optional option_strings a) as [|o v| |] eqn:Htok.
    + destruct pending as [o|].
      * destruct (store o a ns) as [ns1|] eqn:Hst; [|done].
        transitivity (proj ns1); [by apply (IH false None ns1 ns')|].
        eapply store_frame; [|done]. congruence.
      * by apply (IH false None ns ns').
    + assert (o <> flag) as Hne.
      { intros ->. apply Ha. by exists v. }
      destruct pending; [by destruct v|].
      destruct v as [v|].
      * destruct (store o v ns) as [ns1|] eqn:Hst; [|done].
        transitivity (proj ns1); [by apply (IH false None ns1 ns')|].
        by eapply store_frame.
      * apply (IH false (Some o) ns ns'); [congruence|done|done].
    + done.
    + destruct pending; [done|]. by apply (IH false None ns ns').
Qed.

End ArgparseFacts.

Lemma training_store_n o v ns ns' :
  o <> "--n-estimators" -> training.store o v ns = Some ns' ->
  training.n_estimators ns' = training.n_estimators ns.
Proof.
  unfold training.store. intros Hne Hs.
  repeat (case_bool_decide; [try done; first
    [ by inversion Hs
    | by destruct (int_of_string v); inversion Hs ]|]).
  done.
Qed.

Lemma training_store_m o v ns ns' :
  o <> "--min-samples-leaf" -> training.store o v ns = Some ns' ->
  training.min_samples_leaf ns' = training.min_samples_leaf ns.
Proof.
  unfold training.store. intros Hne Hs.
  repeat (case_bool_decide; [try done; first
    [ by inversion Hs
    | by destruct (int_of_string v); inversion Hs ]|]).
  done.
Qed.

Lemma monolithic_store_n o v ns ns' :
  o <> "--n-estimators" -> sklearn_pipeline.store o v ns = Some ns' ->
  sklearn_pipeline.n_estimators ns' = sklearn_pipeline.n_estimators ns.
Proof.
  unfold sklearn_pipeline.store. intros Hne Hs.
  repeat (case_bool_decide; [try done; first
    [ by inversion Hs
    | by destruct (int_of_string v); inversion Hs ]|]).
  done.
Qed.

Lemma monolithic_store_m o v ns ns' :
  o <> "--min-samples-leaf" -> sklearn_pipeline.store o v ns = Some ns' ->
  sklearn_pipeline.min_samples_leaf ns' = sklearn_pipeline.min_samples_leaf ns.
Proof.
  unfold sklearn_pipeline.store. intros Hne Hs.
  repeat (case_bool_decide; [try done; first
    [ by inversion Hs
    | by destruct (int_of_string v); inversion Hs ]|]).
  done.
Qed.

(** C10.  When neither hyperparameter flag is supplied on the command line,
    [training.py] and [sklearn_pipeline.py] both parse to
    [n_estimators = 10] and [min_samples_leaf = 3]; with the hyperparameters
    of the notebook's cloud jobs on the command line both parse to
    [n_estimators = 100] and [min_samples_leaf = 3]. *)
Theorem hyperparameter_defaults (environ : gmap string string) (argv : list string) :
  (forall a,
     ~ supplies training.option_strings "--n-estimators" argv ->
     ~ supplies training.option_strings "--min-samples-leaf" argv ->
     training._parse_args environ argv = Some a ->
     training.n_estimators a = 10 /\ training.min_samples_leaf a = 3) /\
  (forall a,
     ~ supplies sklearn_pipeline.option_strings "--n-estimators" argv ->
     ~ supplies sklearn_pipeline.option_strings "--min-samples-leaf" argv ->
     sklearn_pipeline._parse_args environ argv = Some a ->
     sklearn_pipeline.n_estimators a = 10 /\
     sklearn_pipeline.min_samples_leaf a = 3) /\
  (exists a, training._parse_args environ notebook.hyperparameters = Some a /\
     training.n_estimators a = 100 /\ training.min_samples_leaf a = 3) /\
  (exists a, sklearn_pipeline._parse_args environ notebook.hyperparameters = Some a /\
     sklearn_pipeline.n_estimators a = 100 /\
     sklearn_pipeline.min_samples_leaf a = 3).
Proof.
  unfold supplies. repeat split.
  - change 10 with (training.n_estimators (training.defaults environ)).
    eapply (parse_loop_frame _ _ training.n_estimators "--n-estimators"
              training_store_n argv false None); [done| |done].
    by apply Forall_Exists_neg.
  - change 3 with (training.min_samples_leaf (training.defaults environ)).
    eapply (parse_loop_frame _ _ training.min_samples_leaf "--min-samples-leaf"
              training_store_m argv false None); [done| |done].
    by apply Forall_Exists_neg.
  - change 10 with (sklearn_pipeline.n_estimators (sklearn_pipeline.defaults environ)).
    eapply (parse_loop_frame _ _ sklearn_pipeline.n_estimators "--n-estimators"
              monolithic_store_n argv false None); [done| |done].
    by apply Forall_Exists_neg.
  - change 3 with (sklearn_pipeline.min_samples_leaf (sklearn_pipeline.defaults environ)).
    eapply (parse_loop_frame _ _ sklearn_pipeline.min_samples_leaf "--min-samples-leaf"
              monolithic_store_m argv false None); [done| |done].
    by apply Forall_Exists_neg.
  - eexists. split; [vm_compute; reflexivity|]. by vm_compute.
  - eexists. split; [vm_compute; reflexivity|]. by vm_compute.
Qed.

(** ** pandas and scikit-learn steps *)

Section Steps.

Context `{Sklearn}.

Lemma frame_of_csv_Ok t df :
  frame_of_csv t = Ok df ->
  columns df = LStr <$> t.1 /\ values df = pad_row (length t.1) <$> t.2.
Proof.
  unfold frame_of_csv. destruct (forallb _ _); [|done].
  intros Hd. by inversion Hd.
Qed.

Lemma read_csv_Ok path w df w' :
  read_csv path w = (Ok df, w') ->
  w' = w /\ exists b t, fs w !! path = Some b /\ csv_decode b = Some t /\
    frame_of_csv t = Ok df.
Proof.
  unfold read_csv. intros Hr. step Hr. apply of_option_Ok in Hstep.
  apply lift_Ok in Hr as [Hr ->].
  split; [done|]. apply result_bind_Ok in Hr as (t & Ht & Hf).
  apply of_option_Ok in Ht. eauto.
Qed.

Lemma write_file_eq path b w :
  write_file path b w =
  (Ok tt, {| fs := <[path := b]> (fs w); np_random := np_random w;
             stdout := stdout w |}).
Proof. done. Qed.

Lemma drop_Ok l df X :
  drop l df = Ok X ->
  l ∈ columns df /\
  columns X = filter (fun c => c <> l) (columns df) /\
  values X = keep_cells l (columns df) <$> values df.
Proof.
  unfold drop. case_bool_decide; [|done]. intros Hd. by inversion Hd.
Qed.

Lemma getattr_Ok l df y :
  getattr l df = Ok y ->
  exists j, position l (columns df) = Some j /\
    y = {| name := l; cells := (fun row => nth j row nan) <$> values df |}.
Proof.
  unfold getattr. destruct (position l (columns df)) as [j|]; [|done].
  intros Hg. inversion Hg. eauto.
Qed.

Lemma iloc_Ok df idx out :
  iloc df idx = Ok out ->
  columns out = columns df /\
  Forall2 (fun i row => values df !! i = Some row) idx (values out).
Proof.
  unfold iloc. intros Hi. apply result_bind_Ok in Hi as (rows & Hrows & Hout).
  inversion Hout; subst; simpl. split; [done|].
  apply mapR_Forall2 in Hrows. eapply Forall2_impl; [done|].
  intros i row Hrow. by apply of_option_Ok in Hrow.
Qed.

Lemma shuffle_split_seeded n seed w r w' :
  shuffle_split n (Some seed) w = (Ok r, w') ->
  w' = w /\ r = split_indices (RandomState seed) n /\
  (n - n_test_of n <> 0)%nat.
Proof.
  unfold shuffle_split. case_bool_decide; [done|].
  intros Hs. by inversion Hs.
Qed.

Lemma train_test_split_seeded df seed w train test w' :
  train_test_split df (Some seed) w = (Ok (train, test), w') ->
  let n := length (values df) in
  w' = w /\ (n - n_test_of n <> 0)%nat /\
  iloc df (split_indices (RandomState seed) n).1 = Ok train /\
  iloc df (split_indices (RandomState seed) n).2 = Ok test.
Proof.
  unfold train_test_split. intros Hs. step Hs.
  destruct a as [ind_train ind_test].
  apply shuffle_split_seeded in Hstep as (-> & Hidx & Hn).
  rewrite <- Hidx. simpl.
  step Hs. step Hs. apply ret_Ok in Hs as [Hs ->].
  inversion Hs; subst. done.
Qed.

Lemma fit_transform_scaler nm st X p T :
  fit_transform (Pipeline [(nm, StandardScaler st)]) X = Ok (p, T) ->
  exists s, scaler_fit X = Some s /\ scaler_apply s X = Ok T /\
    p = Pipeline [(nm, StandardScaler (Some s))].
Proof.
  simpl. destruct (scaler_fit X) as [s|]; [|done].
  destruct (scaler_apply s X) as [T'|] eqn:HT; [|done].
  intros Hf. inversion Hf; subst. eauto.
Qed.

Lemma transform_scaler nm s X :
  transform (Pipeline [(nm, StandardScaler (Some s))]) X = scaler_apply s X.
Proof. simpl. by destruct (scaler_apply s X). Qed.

End Steps.

Section Preprocessing.

Context `{Sklearn}.

(** What a successful run of the first stage has done. *)
Lemma preprocessing_main_Ok argv w w' :
  preprocessing.main argv w = (Ok tt, w') ->
  exists args b t df X y s T train test,
    preprocessing._parse_args argv = Some args /\
    fs w !! os_path.join (preprocessing.filepath args) (preprocessing.filename args)
      = Some b /\
    csv_decode b = Some t /\ frame_of_csv t = Ok df /\
    drop (LStr "y") df = Ok X /\ getattr (LStr "y") df = Ok y /\
    scaler_fit (values X) = Some s /\ scaler_apply s (values X) = Ok T /\
    let output := concat_axis1 (DataFrame_of_array T) y in
    let n := length (values output) in
    let idx := split_indices (RandomState 42) n in
    (n - n_test_of n <> 0)%nat /\
    iloc output idx.1 = Ok train /\ iloc output idx.2 = Ok test /\
    let out := preprocessing.outputpath args in
    w' = {| fs :=
              <[os_path.join out "pipeline/preproc-pipeline.joblib" :=
                  pickle_dumps (Pipeline [("scaler", StandardScaler (Some s))])]>
                (<[os_path.join out "test/test.csv" :=
                     csv_encode (label_str <$> columns test, values test)]>
                   (<[os_path.join out "train/train.csv" :=
                        csv_encode (label_str <$> columns train, values train)]>
                      (fs w)));
            np_random := np_random w; stdout := stdout w |}.
Proof.
  unfold preprocessing.main. intros Hm.
  step Hm. apply of_option_Ok in Hstep. rename a into args.
  step Hm. apply read_csv_Ok in Hstep0 as (-> & b & t & Hb & Ht & Hdf).
  rename a into df.
  step Hm. rename a into X, Hstep0 into HX.
  step Hm. rename a into y, Hstep0 into Hy.
  step Hm. destruct a as [pipe T].
  apply fit_transform_scaler in Hstep0 as (s & Hs & HT & ->).
  step Hm. destruct a as [train test].
  apply train_test_split_seeded in Hstep0 as (-> & Hn & Htrain & Htest).
  unfold to_csv, dump, mbind, py_bind, write_file in Hm. simpl in Hm.
  inversion Hm; subst.
  exists args, b, t, df, X, y, s, T, train, test. done.
Qed.

End Preprocessing.

Section Rows.

Context `{Sklearn}.

Lemma nth_pad_row j k (raw : list V) : nth j (pad_row k raw) nan = nth j raw nan.
Proof.
  unfold pad_row. destruct (decide (j < length raw)%nat) as [Hlt|Hge].
  - by rewrite app_nth1.
  - rewrite app_nth2 by lia. rewrite (nth_overflow raw) by lia.
    generalize (k - length raw)%nat (j - length raw)%nat. clear.
    intros n. induction n as [|n IH]; intros [|m]; simpl; auto.
Qed.

Lemma scaler_apply_length s X T : scaler_apply s X = Ok T -> length T = length X.
Proof. unfold scaler_apply. destruct X; [done|]. apply mapR_length. Qed.

Lemma scaler_apply_lookup s X T i feats :
  scaler_apply s X = Ok T -> T !! i = Some feats ->
  exists x, X !! i = Some x /\ scaler_row s x = Some feats.
Proof.
  unfold scaler_apply. destruct X as [|x0 X0]; [done|]. intros HT Hi.
  destruct (mapR_lookup _ _ _ _ _ HT Hi) as (x & Hx & Hrow).
  apply of_option_Ok in Hrow. eauto.
Qed.

Lemma forest_apply_length f X p : forest_apply f X = Ok p -> length p = length X.
Proof. unfold forest_apply. destruct X; [done|]. apply mapR_length. Qed.

Lemma forest_apply_lookup f X p i l :
  forest_apply f X = Ok p -> p !! i = Some l ->
  exists x, X !! i = Some x /\ forest_row f x = Some l.
Proof.
  unfold forest_apply. destruct X as [|x0 X0]; [done|]. intros HT Hi.
  destruct (mapR_lookup _ _ _ _ _ HT Hi) as (x & Hx & Hrow).
  apply of_option_Ok in Hrow. eauto.
Qed.

Lemma n_test_le n : (n_test_of n <= n)%nat.
Proof. unfold n_test_of. destruct n; [done|]. apply Nat.Div0.div_le_upper_bound. lia. Qed.

Section Split.

Context `{!SklearnLaws}.

Lemma permutation_length g n : length (permutation g n) = n.
Proof. rewrite (Permutation_length (permutation_perm g n)). apply length_seq. Qed.

Lemma split_indices_length g n :
  length (split_indices g n).1 = (n - n_test_of n)%nat /\
  length (split_indices g n).2 = n_test_of n.
Proof.
  pose proof (n_test_le n). pose proof (permutation_length g n).
  unfold split_indices; simpl.
  rewrite !length_take, length_skipn. lia.
Qed.

Lemma split_indices_perm g n :
  (split_indices g n).2 ++ (split_indices g n).1 ≡ₚ seq 0 n.
Proof.
  unfold split_indices; simpl.
  rewrite (take_ge (skipn _ _)).
  - rewrite take_drop. apply permutation_perm.
  - rewrite length_skipn, permutation_length. lia.
Qed.

End Split.

End Rows.

Section FirstStage.

Context `{Sklearn}.

Lemma concat_axis1_length df s :
  length (values df) = length (cells s) ->
  length (values (concat_axis1 df s)) = length (values df).
Proof. intros Hl. simpl. rewrite length_zip_with. lia. Qed.

(** The three output paths of the first stage are three different files. *)
Lemma preprocessing_paths out :
  os_path.join out "train/train.csv" <> os_path.join out "test/test.csv" /\
  os_path.join out "train/train.csv"
    <> os_path.join out "pipeline/preproc-pipeline.joblib" /\
  os_path.join out "test/test.csv"
    <> os_path.join out "pipeline/preproc-pipeline.joblib".
Proof. repeat split; by apply join_ne. Qed.

(** A successful run of the first stage, row by row: output row [i] is
    the scaled features of input row [i] followed by its label. *)
Lemma preprocessing_rows argv w w' :
  preprocessing.main argv w = (Ok tt, w') ->
  exists args b t df X j s T (train test : csv_table),
    preprocessing._parse_args argv = Some args /\
    fs w !! os_path.join (preprocessing.filepath args) (preprocessing.filename args)
      = Some b /\
    csv_decode b = Some t /\ frame_of_csv t = Ok df /\
    drop (LStr "y") df = Ok X /\ position (LStr "y") (columns df) = Some j /\
    scaler_fit (values X) = Some s /\ scaler_apply s (values X) = Ok T /\
    let n := length t.2 in
    let idx := split_indices (RandomState 42) n in
    let row_of (i : nat) (row : list V) :=
      exists raw x feats,
        t.2 !! i = Some raw /\ values X !! i = Some x /\
        T !! i = Some feats /\ scaler_row s x = Some feats /\
        row = (feats ++ [nth j raw nan])%list in
    (n - n_test_of n <> 0)%nat /\
    Forall2 row_of idx.1 train.2 /\ Forall2 row_of idx.2 test.2 /\
    let out := preprocessing.outputpath args in
    fs w' !! os_path.join out "train/train.csv" = Some (csv_encode train) /\
    fs w' !! os_path.join out "test/test.csv" = Some (csv_encode test) /\
    fs w' !! os_path.join out "pipeline/preproc-pipeline.joblib"
      = Some (pickle_dumps (Pipeline [("scaler", StandardScaler (Some s))])) /\
    (forall p, p <> os_path.join out "train/train.csv" ->
               p <> os_path.join out "test/test.csv" ->
               p <> os_path.join out "pipeline/preproc-pipeline.joblib" ->
               fs w' !! p = fs w !! p) /\
    np_random w' = np_random w /\ stdout w' = stdout w /\
    train.1 = (label_str <$> (LInt <$> seq 0 (ncols T))) ++ ["y"] /\
    test.1 = (label_str <$> (LInt <$> seq 0 (ncols T))) ++ ["y"].
Proof.
  intros Hm. apply preprocessing_main_Ok in Hm
    as (args & b & t & df & X & y & s & T & train & test & Hargs & Hb & Ht
        & Hdf & HX & Hy & Hs & HT & Hrun).
  cbv zeta in Hrun. destruct Hrun as (Hn & Htrain & Htest & ->).
  apply getattr_Ok in Hy as (j & Hj & ->).
  pose proof (frame_of_csv_Ok _ _ Hdf) as [Hcols Hvals].
  pose proof (drop_Ok _ _ _ HX) as (_ & _ & HXv).
  pose proof (scaler_apply_length _ _ _ HT) as HTlen.
  assert (length (values X) = length t.2) as HXlen.
  { by rewrite HXv, Hvals, !length_fmap. }
  set (y := {| name := LStr "y";
               cells := (fun row : list V => nth j row nan) <$> values df |}) in *.
  set (output := concat_axis1 (DataFrame_of_array T) y) in *.
  assert (length (values output) = length t.2) as Hlen.
  { unfold output. rewrite concat_axis1_length; simpl; [lia|].
    rewrite Hvals, !length_fmap. lia. }
  rewrite Hlen in Hn, Htrain, Htest.
  assert (forall i row,
    values output !! i = Some row ->
    exists raw x feats,
      t.2 !! i = Some raw /\ values X !! i = Some x /\
      T !! i = Some feats /\ scaler_row s x = Some feats /\
      row = (feats ++ [nth j raw nan])%list) as Hrow.
  { intros i row Hi. simpl in Hi. apply lookup_zip_with_Some in Hi
      as (feats & v & -> & Hfeats & Hv).
    destruct (scaler_apply_lookup _ _ _ _ _ HT Hfeats) as (x & Hx & Hsx).
    rewrite Hvals, <- list_fmap_compose in Hv.
    apply list_lookup_fmap_Some in Hv as (raw & -> & Hraw).
    exists raw, x, feats. simpl. by rewrite nth_pad_row. }
  destruct (preprocessing_paths (preprocessing.outputpath args))
    as (H12 & H13 & H23).
  exists args, b, t, df, X, j, s, T,
    (label_str <$> columns train, values train),
    (label_str <$> columns test, values test).
  cbv zeta. split_and!; try done.
  - apply iloc_Ok in Htrain as [_ Hrows]. simpl.
    eapply Forall2_impl; [done|]. intros i row Hi. apply Hrow, Hi.
  - apply iloc_Ok in Htest as [_ Hrows]. simpl.
    eapply Forall2_impl; [done|]. intros i row Hi. apply Hrow, Hi.
  - simpl. rewrite lookup_insert_ne, lookup_insert_ne by done.
    by rewrite lookup_insert_eq.
  - simpl. rewrite lookup_insert_ne by done. by rewrite lookup_insert_eq.
  - simpl. by rewrite lookup_insert_eq.
  - intros p Hp1 Hp2 Hp3. simpl. by rewrite !lookup_insert_ne.
  - apply iloc_Ok in Htrain as [-> _]. simpl. by rewrite fmap_app.
  - apply iloc_Ok in Htest as [-> _]. simpl. by rewrite fmap_app.
Qed.

End FirstStage.

Section Determinism.

Context `{Sklearn}.

Lemma fs_only_bind {A B} (m : py A) (f : A -> py B) :
  fs_only m -> (forall a, fs_only (f a)) -> fs_only (m ≫= f).
Proof.
  intros Hm Hf w1 w2 Hfs. destruct (Hm w1 w2 Hfs) as [Hr Hw].
  unfold mbind, py_bind.
  destruct (m w1) as [r1 w1'], (m w2) as [r2 w2']; simpl in *; subst.
  destruct r2 as [a|e]; [by apply Hf|done].
Qed.

Lemma fs_only_lift {A} (r : result A) : fs_only (lift r).
Proof. by intros w1 w2 Hfs. Qed.

Lemma fs_only_ret {A} (a : A) : fs_only (mret a).
Proof. by intros w1 w2 Hfs. Qed.

Lemma fs_only_read_file path : fs_only (read_file path).
Proof. intros w1 w2 Hfs. unfold read_file; simpl. by rewrite Hfs. Qed.

Lemma fs_only_write_file path b : fs_only (write_file path b).
Proof. intros w1 w2 Hfs. unfold write_file; simpl. by rewrite Hfs. Qed.

Lemma fs_only_read_csv path : fs_only (read_csv path).
Proof.
  apply fs_only_bind; [apply fs_only_read_file|]. intros b. apply fs_only_lift.
Qed.

Lemma fs_only_shuffle_split n seed : fs_only (shuffle_split n (Some seed)).
Proof.
  unfold shuffle_split. case_bool_decide; [apply fs_only_lift|].
  apply fs_only_bind; [apply fs_only_ret|]. intros g. apply fs_only_ret.
Qed.

Lemma fs_only_train_test_split df seed : fs_only (train_test_split df (Some seed)).
Proof.
  apply fs_only_bind; [apply fs_only_shuffle_split|]. intros [tr te].
  apply fs_only_bind; [apply fs_only_lift|]. intros train.
  apply fs_only_bind; [apply fs_only_lift|]. intros test.
  apply fs_only_ret.
Qed.

Lemma fs_only_train_test_split_arrays X y seed :
  fs_only (train_test_split_arrays X y (Some seed)).
Proof.
  unfold train_test_split_arrays. case_bool_decide; [|apply fs_only_lift].
  apply fs_only_bind; [apply fs_only_shuffle_split|]. intros [tr te].
  repeat (apply fs_only_bind; [apply fs_only_lift|]; intros ?).
  apply fs_only_ret.
Qed.

Lemma fs_only_preprocessing argv : fs_only (preprocessing.main argv).
Proof.
  apply fs_only_bind; [apply fs_only_lift|]. intros args.
  apply fs_only_bind; [apply fs_only_read_csv|]. intros df.
  apply fs_only_bind; [apply fs_only_lift|]. intros X.
  apply fs_only_bind; [apply fs_only_lift|]. intros y.
  apply fs_only_bind; [apply fs_only_lift|]. intros [pipe T].
  apply fs_only_bind; [apply fs_only_train_test_split|]. intros [train test].
  apply fs_only_bind; [apply fs_only_write_file|]. intros _.
  apply fs_only_bind; [apply fs_only_write_file|]. intros _.
  apply fs_only_write_file.
Qed.

Lemma fs_only_generate_dataset X y : fs_only (notebook.generate_dataset X y).
Proof.
  apply fs_only_bind; [apply fs_only_write_file|]. intros _.
  apply fs_only_bind; [apply fs_only_train_test_split_arrays|].
  intros [[[X_train X_test] y_train] y_test].
  apply fs_only_bind; [apply fs_only_write_file|]. intros _.
  apply fs_only_write_file.
Qed.

(** C4.  Two runs of the preprocessing stage over the same files return
    the same result and leave the same files, whatever the state of the
    global random generator (and of stdout) of each run: the split is
    seeded with 42.  The same holds of the dataset-generation cell, whose
    split is seeded with 0. *)
Theorem seeded_split_is_reproducible (argv : list string) (X : matrix)
    (y : list V) (w1 w2 : world) :
  fs w1 = fs w2 ->
  ((preprocessing.main argv w1).1 = (preprocessing.main argv w2).1 /\
   fs (preprocessing.main argv w1).2 = fs (preprocessing.main argv w2).2) /\
  ((notebook.generate_dataset X y w1).1 = (notebook.generate_dataset X y w2).1 /\
   fs (notebook.generate_dataset X y w1).2
     = fs (notebook.generate_dataset X y w2).2).
Proof.
  intros Hfs. split.
  - by apply fs_only_preprocessing.
  - by apply fs_only_generate_dataset.
Qed.

End Determinism.

Section Failures.

Context `{Sklearn}.

(** C8.  When the input file is absent (its directory missing included)
    the first stage stops with pandas' [FileNotFoundError]; when the file
    is a well-formed table without a column [y] it stops with pandas'
    [KeyError].  Nothing catches either, and the process state, files
    included, is what it was. *)
Theorem missing_input_is_fatal (argv : list string) (args : preprocessing.args)
    (w : world) :
  preprocessing._parse_args argv = Some args ->
  let path :=
    os_path.join (preprocessing.filepath args) (preprocessing.filename args) in
  (fs w !! path = None ->
   preprocessing.main argv w = (Raise FileNotFoundError, w)) /\
  (forall b t df,
     fs w !! path = Some b -> csv_decode b = Some t -> frame_of_csv t = Ok df ->
     "y" ∉ t.1 ->
     preprocessing.main argv w = (Raise KeyError, w)).
Proof.
  intros Hargs path. unfold preprocessing.main. rewrite Hargs. split.
  - intros Hnone. unfold mbind at 1, py_bind at 1. simpl.
    unfold mbind at 1, py_bind at 1. unfold read_csv.
    unfold mbind at 1, py_bind at 1. unfold read_file. fold path.
    by rewrite Hnone.
  - intros b t df Hb Ht Hdf Hy. unfold mbind at 1, py_bind at 1. simpl.
    unfold mbind at 1, py_bind at 1. unfold read_csv.
    unfold mbind at 1, py_bind at 1. unfold read_file. fold path.
    rewrite Hb. simpl. unfold lift. rewrite Ht. simpl. rewrite Hdf.
    unfold mbind at 1, py_bind at 1.
    assert (drop (LStr "y") df = Raise KeyError) as ->; [|done].
    unfold drop. rewrite bool_decide_eq_false_2; [done|].
    apply frame_of_csv_Ok in Hdf as [-> _].
    intros Hin. apply list_elem_of_fmap in Hin as (c & Hc & Hin).
    inversion Hc; subst. done.
Qed.

End Failures.

Section FirstStageClaims.

Context `{Sklearn} `{!SklearnLaws}.




End FirstStageClaims.

Section Accuracy.

Context `{Sklearn}.

Lemma count_equal_le (a b : list V) : (count_equal a b <= length a)%nat.
Proof.
  unfold count_equal. etrans; [apply length_filter|].
  rewrite length_zip. lia.
Qed.

Lemma accuracy_score_unit y p a :
  accuracy_score y p = Ok a -> p <> [] -> unit_interval a.
Proof.
  unfold accuracy_score. case_bool_decide as Hlen; [|done].
  destruct y as [|v y]; [by destruct p|].
  intros Ha _. inversion Ha; subst; clear Ha.
  pose proof (count_equal_le (v :: y) p) as Hle.
  set (c := count_equal (v :: y) p) in *.
  simpl length in *. unfold unit_interval, Qle. simpl Qnum. simpl Qden.
  lia.
Qed.

Lemma forest_apply_nonempty f X p : forest_apply f X = Ok p -> p <> [].
Proof.
  unfold forest_apply. destruct X; [done|]. intros Hp ->.
  by apply mapR_length in Hp.
Qed.

Lemma quiet_lift {A} (r : result A) : quiet (lift r).
Proof. done. Qed.

Lemma quiet_ret {A} (a : A) : quiet (mret a).
Proof. done. Qed.

Lemma quiet_read_file path : quiet (read_file path).
Proof. done. Qed.

Lemma quiet_write_file path b : quiet (write_file path b).
Proof. done. Qed.

Lemma quiet_global_random : quiet global_random.
Proof. done. Qed.

Lemma quiet_bind {A B} (m : py A) (f : A -> py B) :
  quiet m -> (forall a, quiet (f a)) -> quiet (m ≫= f).
Proof.
  intros Hm Hf w. specialize (Hm w). unfold mbind, py_bind.
  destruct (m w) as [[a|e] w1]; simpl in *; [|done].
  by rewrite Hf.
Qed.

Lemma quiet_read_csv path : quiet (read_csv path).
Proof. apply quiet_bind; [apply quiet_read_file|]. intros b. apply quiet_lift. Qed.

Lemma quiet_copy src dst : quiet (copy src dst).
Proof.
  apply quiet_bind; [apply quiet_read_file|]. intros b.
  case_bool_decide; [apply quiet_lift|apply quiet_write_file].
Qed.

Lemma reports_lift_bind {A B} (r : result A) (f : A -> py B) :
  (forall a, r = Ok a -> reports (f a)) -> reports (lift r ≫= f).
Proof.
  intros Hf w. unfold mbind, py_bind, lift. destruct r as [a|e].
  - by apply Hf.
  - exists []. simpl. rewrite app_nil_r. split_and!; try done. lia.
Qed.

Lemma reports_quiet_bind {A B} (m : py A) (f : A -> py B) :
  quiet m -> (forall a, reports (f a)) -> reports (m ≫= f).
Proof.
  intros Hm Hf w. specialize (Hm w). unfold mbind, py_bind.
  destruct (m w) as [[a|e] w1]; simpl in *.
  - rewrite <- Hm. apply Hf.
  - exists []. simpl. rewrite app_nil_r. split_and!; try done. lia.
Qed.

Lemma reports_print {A} (x : pyfloat) (m : py A) :
  unit_interval x -> quiet m -> reports (print_accuracy x ≫= fun _ => m).
Proof.
  intros Hx Hm w. exists [x]. unfold mbind, py_bind, print_accuracy.
  rewrite Hm. simpl. split_and!; try done. by constructor.
Qed.

Lemma fit_monolithic a b st n m j st' g X y p :
  fit (Pipeline [(a, StandardScaler st); (b, RandomForestClassifier n m j st')])
    g X y = Ok p ->
  exists s T f,
    scaler_fit X = Some s /\ scaler_apply s X = Ok T /\
    forest_fit n m g T y = Some f /\
    p = Pipeline [(a, StandardScaler (Some s));
                  (b, RandomForestClassifier n m j (Some f))].
Proof.
  simpl. destruct (scaler_fit X) as [s|]; [|done].
  destruct (scaler_apply s X) as [T|] eqn:HT; [|done].
  destruct (forest_fit n m g T y) as [f|] eqn:Hf; [|done].
  intros Hp. inversion Hp; subst. eauto 10.
Qed.

Lemma predict_two_steps a b p n m j f X :
  predict (Pipeline [(a, p); (b, RandomForestClassifier n m j (Some f))]) X =
  transform p X ≫= forest_apply f.
Proof. simpl. by destruct (transform p X). Qed.

Lemma reports_training environ argv : reports (training.main environ argv).
Proof.
  unfold training.main.
  apply reports_lift_bind; intros args _.
  apply reports_lift_bind; intros train_path _.
  apply reports_quiet_bind; [apply quiet_read_csv|]; intros train_df.
  apply reports_lift_bind; intros test_path _.
  apply reports_quiet_bind; [apply quiet_read_csv|]; intros test_df.
  apply reports_lift_bind; intros X_train _.
  apply reports_lift_bind; intros y_train _.
  apply reports_lift_bind; intros X_test _.
  apply reports_lift_bind; intros y_test _.
  apply reports_quiet_bind; [apply quiet_global_random|]; intros g.
  apply reports_lift_bind; intros model Hmodel.
  apply reports_lift_bind; intros pred Hpred.
  apply reports_lift_bind; intros acc Hacc.
  apply reports_print.
  - eapply accuracy_score_unit; [done|].
    simpl in Hmodel. destruct (forest_fit _ _ _ _ _); [|done].
    inversion Hmodel; subst. simpl in Hpred.
    by eapply forest_apply_nonempty.
  - apply quiet_bind; [apply quiet_lift|]; intros model_path.
    apply quiet_bind; [apply quiet_write_file|]; intros _.
    apply quiet_bind; [apply quiet_lift|]; intros src.
    apply quiet_bind; [apply quiet_lift|]; intros dst.
    apply quiet_copy.
Qed.

Lemma reports_monolithic environ argv : reports (sklearn_pipeline.main environ argv).
Proof.
  unfold sklearn_pipeline.main.
  apply reports_lift_bind; intros args _.
  apply reports_lift_bind; intros train_path _.
  apply reports_quiet_bind; [apply quiet_read_csv|]; intros train_df.
  apply reports_lift_bind; intros X_train _.
  apply reports_lift_bind; intros y_train _.
  apply reports_lift_bind; intros test_path _.
  apply reports_quiet_bind; [apply quiet_read_csv|]; intros test_df.
  apply reports_lift_bind; intros X_test _.
  apply reports_lift_bind; intros y_test _.
  apply reports_quiet_bind; [apply quiet_global_random|]; intros g.
  apply reports_lift_bind; intros pipe Hpipe.
  apply reports_lift_bind; intros acc Hacc.
  apply reports_print.
  - apply fit_monolithic in Hpipe as (s & T & f & _ & _ & _ & ->).
    unfold score in Hacc. rewrite predict_two_steps in Hacc.
    apply result_bind_Ok in Hacc as (p & Hp & Hacc).
    apply result_bind_Ok in Hp as (Xt & _ & Hp).
    eapply accuracy_score_unit; [done|]. by eapply forest_apply_nonempty.
  - apply quiet_bind; [apply quiet_lift|]; intros out.
    apply quiet_write_file.
Qed.

(** C5.  Whatever the command line, the environment and the files, a run
    of [training.py] or of [sklearn_pipeline.py] prints at most one
    accuracy, that accuracy is a number between 0 and 1 (never NaN), and
    a run that returns has printed exactly one. *)
Theorem reported_accuracy_in_unit_interval (environ : gmap string string)
    (argv : list string) :
  reports (training.main environ argv) /\
  reports (sklearn_pipeline.main environ argv).
Proof. split; [apply reports_training|apply reports_monolithic]. Qed.

End Accuracy.

Section SecondStage.

Context `{Sklearn}.

Lemma join_dir_Ok d f p :
  join_dir d f = Ok p -> exists a, d = Some a /\ p = os_path.join a f.
Proof. destruct d as [a|]; [|done]. intros Hp. inversion Hp. eauto. Qed.

Lemma read_csv_frame path w df w' :
  read_csv path w = (Ok df, w') -> read_csv path w = (Ok df, w).
Proof. intros Hr. by destruct (read_csv_Ok _ _ _ _ Hr) as [<- _]. Qed.

Lemma copy_Ok src dst w w' :
  copy src dst w = (Ok tt, w') ->
  exists b, fs w !! src = Some b /\ src <> dst /\
    w' = {| fs := <[dst := b]> (fs w); np_random := np_random w;
            stdout := stdout w |}.
Proof.
  unfold copy. intros Hc. step Hc. apply of_option_Ok in Hstep.
  case_bool_decide; [done|]. inversion Hc. eauto.
Qed.

(** The two files the second stage writes are two different files. *)
Lemma training_paths d :
  os_path.join d "model.joblib" <> os_path.join d "preproc.joblib".
Proof. by apply join_ne. Qed.

(** What a successful run of the second stage has done. *)
Lemma training_main_Ok environ argv w w' :
  training.main environ argv w = (Ok tt, w') ->
  exists args dtrain dtest dpipe d train_df test_df X_train y_train X_test y_test
         f pred acc b,
    training._parse_args environ argv = Some args /\
    training.train args = Some dtrain /\ training.test args = Some dtest /\
    training.pipeline args = Some dpipe /\ training.model_dir args = Some d /\
    read_csv (os_path.join dtrain (training.train_file args)) w = (Ok train_df, w) /\
    read_csv (os_path.join dtest (training.test_file args)) w = (Ok test_df, w) /\
    drop (LStr "y") train_df = Ok X_train /\
    getattr (LStr "y") train_df = Ok y_train /\
    drop (LStr "y") test_df = Ok X_test /\
    getattr (LStr "y") test_df = Ok y_test /\
    forest_fit (training.n_estimators args) (training.min_samples_leaf args)
      (np_random w) (values X_train) (cells y_train) = Some f /\
    forest_apply f (values X_test) = Ok pred /\
    accuracy_score (cells y_test) pred = Ok acc /\
    let model :=
      RandomForestClassifier (training.n_estimators args)
        (training.min_samples_leaf args) (Some (-1)) (Some f) in
    let model_path := os_path.join d "model.joblib" in
    let src := os_path.join dpipe (training.pipeline_file args) in
    let dst := os_path.join d "preproc.joblib" in
    <[model_path := pickle_dumps model]> (fs w) !! src = Some b /\
    src <> dst /\
    w' = {| fs := <[dst := b]> (<[model_path := pickle_dumps model]> (fs w));
            np_random := np_random w;
            stdout := stdout w ++ [acc] |}.
Proof.
  unfold training.main. intros Hm.
  step Hm as args Hargs. apply of_option_Ok in Hargs.
  step Hm as train_path Hp. apply join_dir_Ok in Hp as (dtrain & Hdtrain & ->).
  step Hm as train_df Hread.
  pose proof (read_csv_frame _ _ _ _ Hread) as Htrain.
  apply read_csv_Ok in Hread as [-> _].
  step Hm as test_path Hp. apply join_dir_Ok in Hp as (dtest & Hdtest & ->).
  step Hm as test_df Hread.
  pose proof (read_csv_frame _ _ _ _ Hread) as Htest.
  apply read_csv_Ok in Hread as [-> _].
  step Hm as X_train HXtrain.
  step Hm as y_train Hytrain.
  step Hm as X_test HXtest.
  step Hm as y_test Hytest.
  step Hm as g Hg. injection Hg as <-.
  step Hm as model Hmodel. simpl in Hmodel.
  destruct (forest_fit _ _ _ _ _) as [f|] eqn:Hf; [|done].
  injection Hmodel as <-.
  step Hm as pred Hpred. simpl in Hpred.
  step Hm as acc Hacc.
  step Hm as u Hprint. unfold print_accuracy in Hprint. injection Hprint as <-.
  step Hm as model_path Hp. apply join_dir_Ok in Hp as (d & Hd & ->).
  step Hm as u' Hdump. unfold dump, write_file in Hdump. injection Hdump as <-.
  step Hm as src Hp. apply join_dir_Ok in Hp as (dpipe & Hdpipe & ->).
  step Hm as dst Hp. apply join_dir_Ok in Hp as (d' & Hd' & ->).
  assert (d' = d) as -> by congruence.
  apply copy_Ok in Hm as (b & Hb & Hne & ->). simpl in *.
  exists args, dtrain, dtest, dpipe, d, train_df, test_df, X_train, y_train,
    X_test, y_test, f, pred, acc, b.
  split_and!; done.
Qed.

End SecondStage.

Section Workflow.

Context `{Sklearn}.

Lemma load_Ok path w e :
  fs w !! path = Some (pickle_dumps e) -> pickle_loads (pickle_dumps e) = Some e ->
  load path w = (Ok e, w).
Proof.
  intros Hf Hl. unfold load, read_file, mbind, py_bind, lift.
  rewrite Hf. simpl. by rewrite Hl.
Qed.

Lemma model_fn_eq d w :
  training.model_fn d w =
  match fs w !! os_path.join d "preproc.joblib" with
  | None => (Raise FileNotFoundError, w)
  | Some b1 =>
      match pickle_loads b1 with
      | None => (Raise UnpicklingError, w)
      | Some preproc =>
          match fs w !! os_path.join d "model.joblib" with
          | None => (Raise FileNotFoundError, w)
          | Some b2 =>
              match pickle_loads b2 with
              | None => (Raise UnpicklingError, w)
              | Some model =>
                  (Ok (Pipeline [("preproc", preproc); ("model", model)]), w)
              end
          end
      end
  end.
Proof.
  unfold training.model_fn, load, read_file, mbind, py_bind, lift.
  destruct (fs w !! os_path.join d "preproc.joblib") as [b1|]; simpl; [|done].
  destruct (pickle_loads b1) as [preproc|]; simpl; [|done].
  destruct (fs w !! os_path.join d "model.joblib") as [b2|]; simpl; [|done].
  by destruct (pickle_loads b2).
Qed.

(** C7.  A successful run of the first stage adds to the files exactly
    [train/train.csv], [test/test.csv] and
    [pipeline/preproc-pipeline.joblib] under its output path; a successful
    run of the second stage then adds exactly [model.joblib] and
    [preproc.joblib] in its model directory; and [model_fn] on that
    directory reads those two files only: in any state where the two
    files are the same it returns the same result. *)
Theorem artifact_layout (argv_p argv_t : list string)
    (environ : gmap string string) (w0 w1 w2 : world) :
  preprocessing.main argv_p w0 = (Ok tt, w1) ->
  training.main environ argv_t w1 = (Ok tt, w2) ->
  exists pa ta d,
    preprocessing._parse_args argv_p = Some pa /\
    training._parse_args environ argv_t = Some ta /\
    training.model_dir ta = Some d /\
    let out := preprocessing.outputpath pa in
    dom (fs w1) =
      dom (fs w0) ∪
      {[ os_path.join out "train/train.csv";
         os_path.join out "test/test.csv";
         os_path.join out "pipeline/preproc-pipeline.joblib" ]} /\
    dom (fs w2) =
      dom (fs w1) ∪
      {[ os_path.join d "model.joblib"; os_path.join d "preproc.joblib" ]} /\
    forall w3,
      fs w3 !! os_path.join d "model.joblib"
        = fs w2 !! os_path.join d "model.joblib" ->
      fs w3 !! os_path.join d "preproc.joblib"
        = fs w2 !! os_path.join d "preproc.joblib" ->
      (training.model_fn d w3).1 = (training.model_fn d w2).1.
Proof.
  intros Hp Ht.
  apply preprocessing_main_Ok in Hp
    as (pa & b & t & df & X & y & s & T & train & test & Hpa & _ & _ & _ & _
        & _ & _ & _ & Hrun).
  cbv zeta in Hrun. destruct Hrun as (_ & _ & _ & ->).
  apply training_main_Ok in Ht
    as (ta & dtrain & dtest & dpipe & d & train_df & test_df & X_train & y_train
        & X_test & y_test & f & pred & acc & b' & Hta & _ & _ & _ & Hd & _ & _
        & _ & _ & _ & _ & _ & _ & _ & Hrun).
  cbv zeta in Hrun. destruct Hrun as (_ & _ & ->).
  exists pa, ta, d. cbv zeta. split_and!; try done.
  - simpl. rewrite !dom_insert_L. apply set_eq. intros p.
    rewrite !elem_of_union, !elem_of_singleton. tauto.
  - simpl. rewrite !dom_insert_L. apply set_eq. intros p.
    rewrite !elem_of_union, !elem_of_singleton. tauto.
  - intros w3 Hm3 Hp3. rewrite !model_fn_eq, Hm3, Hp3.
    by repeat case_match.
Qed.

Context `{!SklearnLaws}.

(** C1.  In a run of the two-stage workflow (the first stage returns, then
    the second stage, given the pipeline file the first stage wrote,
    returns), the file [preproc.joblib] of the model directory holds the
    very bytes of the artifact the first stage wrote, and [model_fn] on
    the model directory returns the pair whose first step is the
    deserialized artifact, the pipeline as the first stage fitted it:
    loading changes no file and fits nothing. *)
Theorem inference_transform_is_the_artifact (argv_p argv_t : list string)
    (environ : gmap string string) (w0 w1 w2 : world)
    (pa : preprocessing.args) (ta : training.args) (d : string) :
  preprocessing.main argv_p w0 = (Ok tt, w1) ->
  training.main environ argv_t w1 = (Ok tt, w2) ->
  preprocessing._parse_args argv_p = Some pa ->
  training._parse_args environ argv_t = Some ta ->
  join_dir (training.pipeline ta) (training.pipeline_file ta)
    = Ok (os_path.join (preprocessing.outputpath pa)
            "pipeline/preproc-pipeline.joblib") ->
  training.model_dir ta = Some d ->
  exists artifact model,
    fs w1 !! os_path.join (preprocessing.outputpath pa)
               "pipeline/preproc-pipeline.joblib"
      = Some (pickle_dumps artifact) /\
    fs w2 !! os_path.join d "preproc.joblib" = Some (pickle_dumps artifact) /\
    (exists s, artifact = Pipeline [("scaler", StandardScaler (Some s))]) /\
    training.model_fn d w2
      = (Ok (Pipeline [("preproc", artifact); ("model", model)]), w2).
Proof.
  intros Hp Ht Hpa Hta Hwire Hd.
  apply preprocessing_rows in Hp
    as (pa' & b & t & df & X & j & s & T & train & test & Hpa' & _ & _ & _ & _
        & _ & _ & _ & Hrun).
  cbv zeta in Hrun. destruct Hrun as (_ & _ & _ & _ & _ & Hart & _).
  assert (pa' = pa) as -> by congruence.
  apply training_main_Ok in Ht
    as (ta' & dtrain & dtest & dpipe & d' & train_df & test_df & X_train
        & y_train & X_test & y_test & f & pred & acc & b' & Hta' & _ & _
        & Hdpipe & Hd' & _ & _ & _ & _ & _ & _ & _ & _ & _ & Hrun).
  assert (ta' = ta) as -> by congruence.
  assert (d' = d) as -> by congruence.
  cbv zeta in Hrun. destruct Hrun as (Hsrc & Hne & ->).
  rewrite Hdpipe in Hwire. simpl in Hwire. injection Hwire as Hwire.
  rewrite Hwire in Hsrc, Hne.
  rewrite lookup_insert_ne in Hsrc by by apply join_ne.
  rewrite Hart in Hsrc. injection Hsrc as <-.
  eexists _, _. split_and!; [done| |by eexists|].
  - simpl. by rewrite lookup_insert_eq.
  - rewrite model_fn_eq. simpl. rewrite lookup_insert_eq, pickle_roundtrip.
    rewrite lookup_insert_ne by (apply not_eq_sym, training_paths).
    by rewrite lookup_insert_eq, pickle_roundtrip.
Qed.

End Workflow.

(** The decimal text of a number starts with a digit. *)
Lemma pretty_N_char_digit x : is_digit (pretty_N_char x) = true.
Proof. unfold pretty_N_char. by repeat case_match. Qed.

Lemma pretty_N_go_digit x s :
  (0 < x)%N -> exists c s', pretty_N_go x s = String c s' /\ is_digit c = true.
Proof.
  revert s. induction (N.lt_wf_0 x) as [x _ IH]; intros s Hx.
  rewrite pretty_N_go_step by done.
  destruct (decide (0 < x `div` 10)%N) as [Hpos|Hzero].
  - apply IH; [|done]. by apply N.div_lt.
  - revert Hzero. generalize (x `div` 10)%N. intros q Hq.
    assert (q = 0%N) as -> by lia. rewrite pretty_N_go_0.
    eexists _, _. split; [done|]. apply pretty_N_char_digit.
Qed.

Lemma pretty_nat_digit (n : nat) :
  exists c s', pretty n = String c s' /\ is_digit c = true.
Proof.
  unfold pretty, pretty_nat, pretty, pretty_N. case_decide.
  - by exists "0"%char, "".
  - apply pretty_N_go_digit. lia.
Qed.

Lemma pretty_nat_ne_y (n : nat) : pretty n <> "y".
Proof.
  destruct (pretty_nat_digit n) as (c & s' & -> & Hc). intros Heq.
  inversion Heq; subst. done.
Qed.

Section Frames.

Context `{Sklearn}.

Lemma frame_rows_length t df row :
  frame_of_csv t = Ok df -> row ∈ values df -> length row = length (columns df).
Proof.
  unfold frame_of_csv. destruct (forallb _ _) eqn:Hall; [|done].
  intros Hd. inversion Hd; subst; clear Hd. simpl.
  intros Hin. apply list_elem_of_fmap in Hin as (raw & -> & Hraw).
  rewrite forallb_forall in Hall. apply list_elem_of_In in Hraw.
  apply Hall, Nat.leb_le in Hraw.
  unfold pad_row. rewrite length_app, length_replicate, length_fmap. lia.
Qed.

Lemma keep_cells_length l cols (row : list V) :
  length row = length cols ->
  length (keep_cells l cols row) = length (filter (fun c => c <> l) cols).
Proof.
  unfold keep_cells. rewrite length_fmap. revert row.
  induction cols as [|c cols IH]; intros [|v row] Hlen; simpl in *; try done.
  rewrite !filter_cons. simpl. case_decide; simpl; auto.
Qed.

Lemma keep_cells_last l cols (feats : list V) lab :
  Forall (fun c => c <> l) cols -> length cols = length feats ->
  keep_cells l (cols ++ [l]) (feats ++ [lab]) = feats.
Proof.
  unfold keep_cells. intros Hall. revert feats.
  induction Hall as [|c cols Hc Hall IH]; intros [|v feats] Hlen; simpl in *;
    try done.
  - rewrite filter_cons. simpl. by case_decide.
  - rewrite filter_cons. simpl. case_decide; [|done]. simpl. f_equal.
    apply IH. lia.
Qed.

Lemma pad_row_full k (row : list V) : length row = k -> pad_row k row = row.
Proof.
  intros <-. unfold pad_row. rewrite Nat.sub_diag. simpl. by rewrite app_nil_r.
Qed.

Lemma numeric_labels_ne_y m :
  Forall (fun c => c <> LStr "y")
    (LStr <$> (label_str <$> (LInt <$> seq 0 m))).
Proof.
  rewrite <- !list_fmap_compose. apply Forall_fmap, Forall_forall.
  intros i _. simpl. intros Heq. inversion Heq as [Hy].
  by apply pretty_nat_ne_y in Hy.
Qed.

Lemma predict_fn_unit nm1 nm2 nm3 s n m j f rows :
  training.predict_fn rows
    (Pipeline [(nm1, Pipeline [(nm2, StandardScaler (Some s))]);
               (nm3, RandomForestClassifier n m j (Some f))])
  = scaler_apply s rows ≫= forest_apply f.
Proof.
  unfold training.predict_fn. rewrite predict_two_steps.
  by rewrite transform_scaler.
Qed.

End Frames.

Section HandOff.

Context `{Sklearn} `{!SklearnLaws}.

Lemma scaled_rows_width l t df X s T i feats :
  frame_of_csv t = Ok df -> drop l df = Ok X ->
  scaler_apply s (values X) = Ok T ->
  T !! i = Some feats -> length feats = ncols T.
Proof.
  intros Hdf HX HT.
  set (m := length (filter (fun c => c <> l) (columns df))).
  assert (forall i feats, T !! i = Some feats -> length feats = m) as Hall.
  { clear i feats. intros i feats Hi.
    destruct (scaler_apply_lookup _ _ _ _ _ HT Hi) as (x & Hx & Hsx).
    apply scaler_row_length in Hsx. rewrite Hsx.
    apply drop_Ok in HX as (_ & _ & HXv). rewrite HXv in Hx.
    apply list_lookup_fmap_Some in Hx as (row & -> & Hrow).
    apply keep_cells_length. eapply frame_rows_length; [done|].
    by eapply list_elem_of_lookup_2. }
  intros Hi. rewrite (Hall _ _ Hi).
  destruct T as [|r0 T']; [by destruct i|].
  simpl. symmetry. by apply (Hall 0%nat).
Qed.

(** C6.  In a run of the two-stage workflow, [model_fn] on the model
    directory rebuilds the unit [Pipeline [preproc; model]] in that order
    from the two files the second stage persisted; [predict_fn] applies
    the transform of [preproc] and then predicts with [model]; and for
    every row of the test partition, predicting with the reloaded unit on
    the raw feature row gives the label that the second stage predicted
    for that row in its own evaluation. *)
Theorem handoff_reproduces_evaluation (argv_p argv_t : list string)
    (environ : gmap string string) (w0 w1 w2 : world)
    (pa : preprocessing.args) (ta : training.args) (d : string) :
  preprocessing.main argv_p w0 = (Ok tt, w1) ->
  training.main environ argv_t w1 = (Ok tt, w2) ->
  preprocessing._parse_args argv_p = Some pa ->
  training._parse_args environ argv_t = Some ta ->
  join_dir (training.pipeline ta) (training.pipeline_file ta)
    = Ok (os_path.join (preprocessing.outputpath pa)
            "pipeline/preproc-pipeline.joblib") ->
  join_dir (training.test ta) (training.test_file ta)
    = Ok (os_path.join (preprocessing.outputpath pa) "test/test.csv") ->
  training.model_dir ta = Some d ->
  exists preproc model unit b t df X test_df X_test y_test pred acc,
(* load_model *)
fs w2 !! os_path.join d "preproc.joblib" = Some (pickle_dumps preproc) /\
fs w2 !! os_path.join d "model.joblib" = Some (pickle_dumps model) /\
unit = Pipeline [("preproc", preproc); ("model", model)] /\
training.model_fn d w2 = (Ok unit, w2) /\
(* predict *)
(forall rows,
   training.predict_fn rows unit = transform preproc rows ≫= predict model) /\
(* the evaluation inside the second stage *)
read_csv (os_path.join (preprocessing.outputpath pa) "test/test.csv") w1
  = (Ok test_df, w1) /\
drop (LStr "y") test_df = Ok X_test /\
getattr (LStr "y") test_df = Ok y_test /\
predict model (values X_test) = Ok pred /\
accuracy_score (cells y_test) pred = Ok acc /\
stdout w2 = stdout w1 ++ [acc] /\
(* the raw table *)
fs w0 !! os_path.join (preprocessing.filepath pa) (preprocessing.filename pa)
  = Some b /\
csv_decode b = Some t /\ frame_of_csv t = Ok df /\
drop (LStr "y") df = Ok X /\
(* the reloaded unit on a raw row of the test partition *)
forall k i x,
  (split_indices (RandomState 42) (length t.2)).2 !! k = Some i ->
  values X !! i = Some x ->
  exists label,
    pred !! k = Some label /\ training.predict_fn [x] unit = Ok [label].
Proof.
intros Hp Ht Hpa Hta Hwire Hwire_test Hd.
apply preprocessing_rows in Hp
as (pa' & b & t & df & X & j & s & T & train & test & Hpa' & Hb & Hdec
    & Hdf & HX & Hj & Hs & HT & Hrun).
cbv zeta in Hrun.
destruct Hrun as (Hn & _ & Htest_rows & _ & Htest_file & Hart & _ & _ & _
                & _ & Htest_header).
assert (pa' = pa) as -> by congruence.
apply training_main_Ok in Ht
as (ta' & dtrain & dtest & dpipe & d' & train_df & test_df & X_train
    & y_train & X_test & y_test & f & pred & acc & b' & Hta' & _ & Hdtest
    & Hdpipe & Hd' & _ & Hread & _ & _ & HXtest & Hytest & Hf & Hpred
    & Hacc & Hrun).
assert (ta' = ta) as -> by congruence.
assert (d' = d) as -> by congruence.
cbv zeta in Hrun. destruct Hrun as (Hsrc & Hne & ->).
rewrite Hdpipe in Hwire. simpl in Hwire. injection Hwire as Hwire.
rewrite Hdtest in Hwire_test. simpl in Hwire_test.
injection Hwire_test as Hwire_test.
rewrite Hwire in Hsrc, Hne. rewrite Hwire_test in Hread.
rewrite lookup_insert_ne in Hsrc by by apply join_ne.
rewrite Hart in Hsrc. injection Hsrc as <-.
set (model := RandomForestClassifier (training.n_estimators ta)
              (training.min_samples_leaf ta) (Some (-1)) (Some f)).
set (preproc := Pipeline [("scaler", StandardScaler (Some s))]).
exists preproc, model, (Pipeline [("preproc", preproc); ("model", model)]),
b, t, df, X, test_df, X_test, y_test, pred, acc.
assert (fs {| fs := <[os_path.join d "preproc.joblib" := pickle_dumps preproc]>
                    (<[os_path.join d "model.joblib" := pickle_dumps model]>
                       (fs w1));
            np_random := np_random w1; stdout := stdout w1 ++ [acc] |}
      !! os_path.join d "model.joblib" = Some (pickle_dumps model)) as Hmodel.
{ simpl. rewrite lookup_insert_ne by (apply not_eq_sym, training_paths).
by rewrite lookup_insert_eq. }
split_and!; try done.
- simpl. by rewrite lookup_insert_eq.
- rewrite model_fn_eq, Hmodel. simpl.
by rewrite lookup_insert_eq, !pickle_roundtrip.
- intros k i x Hk Hx.
(* the row the first stage wrote at position [k] of the test table *)
destruct (Forall2_lookup_l _ _ _ _ _ Htest_rows Hk)
  as (row & Hrow & raw & x' & feats & Hraw & Hx' & Hfeats & Hsx & ->).
assert (x' = x) as -> by congruence.
pose proof (scaled_rows_width _ _ _ _ _ _ _ _ Hdf HX HT Hfeats) as Hwidth.
(* the second stage read that table back *)
apply read_csv_Ok in Hread as (_ & b2 & t2 & Hb2 & Ht2 & Hdf2).
rewrite Htest_file in Hb2. injection Hb2 as <-.
rewrite csv_roundtrip in Ht2. injection Ht2 as <-.
pose proof (frame_of_csv_Ok _ _ Hdf2) as [Hcols2 Hvals2].
pose proof (drop_Ok _ _ _ HXtest) as (_ & _ & HXv).
assert (values X_test !! k = Some feats) as Hxk.
{ rewrite HXv, Hvals2, Hcols2, <- list_fmap_compose.
  apply list_lookup_fmap_Some. eexists. split; [|exact Hrow].
  simpl. rewrite Htest_header.
  rewrite pad_row_full
    by (rewrite !length_app, !length_fmap, length_seq; simpl; lia).
  rewrite fmap_app. simpl. symmetry. apply keep_cells_last.
  - apply numeric_labels_ne_y.
  - rewrite !length_fmap, length_seq. lia. }
(* its prediction at position [k] *)
pose proof (forest_apply_length _ _ _ Hpred) as Hlen.
destruct (lookup_lt_is_Some_2 pred k) as [label Hlabel].
{ rewrite Hlen. by eapply lookup_lt_Some. }
destruct (forest_apply_lookup _ _ _ _ _ Hpred Hlabel) as (xk & Hxk' & Hrow_f).
assert (xk = feats) as -> by congruence.
exists label. split; [done|].
unfold model, preproc. rewrite predict_fn_unit. simpl.
rewrite Hsx. simpl. by rewrite Hrow_f.
Qed.

End HandOff.

(** * Further properties of the scripts *)

(** ** Reasoning about every run, failing ones included *)

Section Cases.

Context `{Sklearn}.

(** A property of a sequence holds when it holds of a failure of the first
    step and of the rest after any value of the first step. *)
Lemma bind_case {A B} (m : py A) (f : A -> py B) w
    (Q : result B * world -> Prop) :
  (forall e w1, m w = (Raise e, w1) -> Q (Raise e, w1)) ->
  (forall a w1, m w = (Ok a, w1) -> Q (f a w1)) ->
  Q ((m ≫= f) w).
Proof. unfold mbind, py_bind. destruct (m w) as [[a|e] w1]; eauto. Qed.

Lemma lift_case {A B} (r : result A) (f : A -> py B) w
    (Q : result B * world -> Prop) :
  (forall e, r = Raise e -> Q (Raise e, w)) ->
  (forall a, r = Ok a -> Q (f a w)) ->
  Q ((lift r ≫= f) w).
Proof. unfold mbind, py_bind, lift. destruct r; eauto. Qed.

Lemma read_csv_world path w : (read_csv path w).2 = w.
Proof.
  unfold read_csv, read_file, mbind, py_bind, lift.
  by destruct (fs w !! path).
Qed.

Lemma read_csv_case {B} path (f : DataFrame -> py B) w
    (Q : result B * world -> Prop) :
  (forall e, Q (Raise e, w)) ->
  (forall df, read_csv path w = (Ok df, w) -> Q (f df w)) ->
  Q ((read_csv path ≫= f) w).
Proof.
  intros Hraise Hok. apply bind_case.
  - intros e w1 Hr. pose proof (read_csv_world path w) as Hw.
    rewrite Hr in Hw. simpl in Hw. subst. apply Hraise.
  - intros df w1 Hr. pose proof (read_csv_world path w) as Hw.
    rewrite Hr in Hw. simpl in Hw. subst. by apply Hok.
Qed.


End Cases.

Section FailureModes.

Context `{Sklearn}.

(** X2.  When the command line and the environment give no model directory,
    a run of [training.py] never returns and never changes a file, whatever
    the files are; it can get as far as printing the accuracy, and then the
    exception is the [TypeError] of [os.path.join(None, "model.joblib")]. *)
Theorem training_without_model_dir (environ : gmap string string)
    (argv : list string) (a : training.args) (w : world) :
  training._parse_args environ argv = Some a ->
  training.model_dir a = None ->
  let run := training.main environ argv w in
  (exists e, run.1 = Raise e) /\
  fs run.2 = fs w /\
  (stdout run.2 <> stdout w -> run.1 = Raise TypeError).
Proof.
  intros Hargs Hdir. cbv zeta.
  set (Q := fun p : result unit * world =>
              (exists e, p.1 = Raise e) /\ fs p.2 = fs w /\
              (stdout p.2 <> stdout w -> p.1 = Raise TypeError)).
  change (Q (training.main environ argv w)).
  assert (forall e, Q (Raise e, w)) as Hfail.
  { intros e. unfold Q. simpl. split_and!; [by eexists|done|done]. }
  unfold training.main. rewrite Hargs. simpl of_option.
  apply lift_case; [done|]. intros ? [= <-].
  apply lift_case; [auto|]. intros train_path _.
  apply read_csv_case; [auto|]. intros train_df _.
  apply lift_case; [auto|]. intros test_path _.
  apply read_csv_case; [auto|]. intros test_df _.
  apply lift_case; [auto|]. intros X_train _.
  apply lift_case; [auto|]. intros y_train _.
  apply lift_case; [auto|]. intros X_test _.
  apply lift_case; [auto|]. intros y_test _.
  apply bind_case; [by intros e w1 [= <- <-]|]. intros g w1 [= <- <-].
  apply lift_case; [auto|]. intros model _.
  apply lift_case; [auto|]. intros pred _.
  apply lift_case; [auto|]. intros acc _.
  apply bind_case; [done|]. intros u w1 [= <- <-].
  rewrite Hdir. simpl join_dir.
  apply lift_case; [|done]. intros e [= <-].
  unfold Q. simpl. split_and!; [by eexists|done|done].
Qed.



End FailureModes.

Section Monolithic.

Context `{Sklearn} `{!SklearnLaws}.

(** X1.  A run of [sklearn_pipeline.py] that returns has fitted the scaler
    on the training features only and the forest on the scaled training
    features, has written the one file [pipeline.joblib] under the model
    directory, and [model_fn] on that directory gives the fitted pipeline
    back; [predict_fn] with it scales and then votes, and on the test
    features it repeats the predictions whose accuracy was printed. *)
Theorem monolithic_handoff (environ : gmap string string) (argv : list string)
    (w w' : world) :
  sklearn_pipeline.main environ argv w = (Ok tt, w') ->
  exists a dtrain dtest d train_df test_df X_train y_train X_test y_test
         s T f pred acc,
    sklearn_pipeline._parse_args environ argv = Some a /\
    sklearn_pipeline.train a = Some dtrain /\
    sklearn_pipeline.test a = Some dtest /\
    sklearn_pipeline.model_dir a = Some d /\
    read_csv (os_path.join dtrain (sklearn_pipeline.train_file a)) w
      = (Ok train_df, w) /\
    read_csv (os_path.join dtest (sklearn_pipeline.test_file a)) w
      = (Ok test_df, w) /\
    drop (LStr "y") train_df = Ok X_train /\
    getattr (LStr "y") train_df = Ok y_train /\
    drop (LStr "y") test_df = Ok X_test /\
    getattr (LStr "y") test_df = Ok y_test /\
    (* the scaler is fitted on the training features, the forest on the
       scaled training features *)
    scaler_fit (values X_train) = Some s /\
    scaler_apply s (values X_train) = Ok T /\
    forest_fit (sklearn_pipeline.n_estimators a)
      (sklearn_pipeline.min_samples_leaf a) (np_random w) T (cells y_train)
      = Some f /\
    let pipe :=
      Pipeline
        [("scaler", StandardScaler (Some s));
         ("rfc", RandomForestClassifier (sklearn_pipeline.n_estimators a)
                   (sklearn_pipeline.min_samples_leaf a) None (Some f))] in
    (* one file is written, and loading it gives the fitted pipeline back *)
    fs w' = <[os_path.join d "pipeline.joblib" := pickle_dumps pipe]> (fs w) /\
    sklearn_pipeline.model_fn d w' = (Ok pipe, w') /\
    (* the reloaded pipeline repeats the evaluation that was printed *)
    sklearn_pipeline.predict_fn (values X_test) pipe = Ok pred /\
    accuracy_score (cells y_test) pred = Ok acc /\
    stdout w' = stdout w ++ [acc] /\
    forall rows,
      sklearn_pipeline.predict_fn rows pipe = scaler_apply s rows ≫= forest_apply f.
Proof.
  unfold sklearn_pipeline.main. intros Hm.
  step Hm as a Hargs. apply of_option_Ok in Hargs.
  step Hm as train_path Hp. apply join_dir_Ok in Hp as (dtrain & Hdtrain & ->).
  step Hm as train_df Hread.
  pose proof (read_csv_frame _ _ _ _ Hread) as Htrain.
  apply read_csv_Ok in Hread as [-> _].
  step Hm as X_train HXtrain.
  step Hm as y_train Hytrain.
  step Hm as test_path Hp. apply join_dir_Ok in Hp as (dtest & Hdtest & ->).
  step Hm as test_df Hread.
  pose proof (read_csv_frame _ _ _ _ Hread) as Htest.
  apply read_csv_Ok in Hread as [-> _].
  step Hm as X_test HXtest.
  step Hm as y_test Hytest.
  step Hm as g Hg. injection Hg as <-.
  step Hm as pipe Hpipe.
  apply fit_monolithic in Hpipe as (s & T & f & Hs & HT & Hf & ->).
  step Hm as acc Hacc.
  unfold score in Hacc. apply result_bind_Ok in Hacc as (pred & Hpred & Hacc).
  step Hm as u Hprint. unfold print_accuracy in Hprint. injection Hprint as <-.
  step Hm as out Hp. apply join_dir_Ok in Hp as (d & Hd & ->).
  unfold dump, write_file in Hm. injection Hm as <-.
  exists a, dtrain, dtest, d, train_df, test_df, X_train, y_train, X_test, y_test,
    s, T, f, pred, acc.
  cbv zeta. split_and!; try done.
  unfold sklearn_pipeline.model_fn, load, read_file, mbind, py_bind, lift.
  simpl. rewrite lookup_insert_eq. simpl. by rewrite pickle_roundtrip.
Qed.

(** X5.  After a run of [preprocessing.py] that returns, the test table
    that was written has at least one row and the train table has at least
    as many rows as the test table. *)
Theorem split_partitions_inhabited (argv : list string) (w w' : world) :
  preprocessing.main argv w = (Ok tt, w') ->
  exists args (train test : csv_table),
    preprocessing._parse_args argv = Some args /\
    let out := preprocessing.outputpath args in
    fs w' !! os_path.join out "train/train.csv" = Some (csv_encode train) /\
    fs w' !! os_path.join out "test/test.csv" = Some (csv_encode test) /\
    (1 <= length test.2)%nat /\ (length test.2 <= length train.2)%nat.
Proof.
  intros Hm. apply preprocessing_rows in Hm
    as (args & b & t & df & X & j & s & T & train & test & Hargs & Hb & Ht
        & Hdf & HX & Hj & Hs & HT & Hrun).
  cbv zeta in Hrun.
  destruct Hrun as (Hn & Htrain & Htest & Hf1 & Hf2 & _).
  apply Forall2_length in Htrain, Htest.
  destruct (split_indices_length (RandomState 42) (length t.2)) as [Hl1 Hl2].
  rewrite Hl1 in Htrain. rewrite Hl2 in Htest.
  exists args, train, test. cbv zeta.
  pose proof (Nat.div_mod_eq (length t.2 + 3) 4) as Hdm.
  pose proof (Nat.mod_upper_bound (length t.2 + 3) 4 ltac:(done)) as Hmod.
  unfold n_test_of in *.
  set (q := ((length t.2 + 3) / 4)%nat) in *.
  set (r := ((length t.2 + 3) mod 4)%nat) in *.
  split_and!; try done; lia.
Qed.

End Monolithic.

Section ReadBack.

Context `{Sklearn}.



Lemma Forall2_zip_with {A B C} (P : nat -> A -> Prop) (Q : nat -> B -> Prop)
    (f : A -> B -> C) idx (la : list A) (lb : list B) :
  Forall2 P idx la -> Forall2 Q idx lb ->
  Forall2 (fun i c => exists a b, P i a /\ Q i b /\ c = f a b) idx (zip_with f la lb).
Proof.
  intros Ha. revert lb. induction Ha as [|i a idx la Hia _ IH]; intros lb Hb.
  - inversion Hb. constructor.
  - inversion Hb as [|? b ? lb' Hib Hb']; subst. simpl. constructor; eauto.
Qed.

End ReadBack.

Section StageToStage.

Context `{Sklearn} `{!SklearnLaws}.


End StageToStage.

Section DatasetCell.

Context `{Sklearn} `{!SklearnLaws}.

Lemma shuffle_split_Ok n seed w r w' :
  shuffle_split n (Some seed) w = (Ok r, w') ->
  w' = w /\ r = split_indices (RandomState seed) n.
Proof. intros Hs. by apply shuffle_split_seeded in Hs as (-> & -> & _). Qed.

Lemma pick_Forall2 {A} (a : list A) idx picked :
  mapR (fun i => of_option IndexError (a !! i)) idx = Ok picked ->
  Forall2 (fun i x => a !! i = Some x) idx picked.
Proof.
  intros Hp. apply mapR_Forall2 in Hp. eapply Forall2_impl; [done|].
  intros i x Hx. by apply of_option_Ok in Hx.
Qed.

(** X7.  When the dataset cell of step 0 returns, the features and the
    labels had the same number of rows, [/tmp/data.csv] holds every feature
    row followed by its label, and every row of [/tmp/train.csv] and of
    [/tmp/test.csv] is a feature row followed by the label at the same
    position: one pair of index lists, a permutation of all positions, cuts
    both arrays. *)
Theorem dataset_cell_keeps_rows_and_labels_together (X : matrix) (y : list V)
    (w w' : world) :
  notebook.generate_dataset X y w = (Ok tt, w') ->
  length X = length y /\
  let idx := split_indices (RandomState 0) (length X) in
  idx.2 ++ idx.1 ≡ₚ seq 0 (length X) /\
  exists data train test : csv_table,
    fs w' !! "/tmp/data.csv" = Some (csv_encode data) /\
    fs w' !! "/tmp/train.csv" = Some (csv_encode train) /\
    fs w' !! "/tmp/test.csv" = Some (csv_encode test) /\
    data.2 = zip_with (fun (x : list V) v => x ++ [v]) X y /\
    let together (i : nat) (row : list V) :=
      exists x v, X !! i = Some x /\ y !! i = Some v /\ row = x ++ [v] in
    Forall2 together idx.1 train.2 /\ Forall2 together idx.2 test.2.
Proof.
  unfold notebook.generate_dataset. intros Hm.
  step Hm as u Hdata. unfold to_csv, write_file in Hdata. injection Hdata as <-.
  step Hm as parts Hsplit. destruct parts as [[[X_train X_test] y_train] y_test].
  unfold train_test_split_arrays in Hsplit.
  case_bool_decide as Hlen; [|done].
  step Hsplit as idx Hidx. destruct idx as [ind_train ind_test].
  apply shuffle_split_Ok in Hidx as [-> Hidx].
  step Hsplit as X_train' HXtrain. step Hsplit as X_test' HXtest.
  step Hsplit as y_train' Hytrain. step Hsplit as y_test' Hytest.
  apply ret_Ok in Hsplit as [Hparts ->]. injection Hparts as -> -> -> ->.
  unfold to_csv, write_file, mbind, py_bind in Hm. simpl in Hm.
  injection Hm as <-.
  apply pick_Forall2 in HXtrain, HXtest, Hytrain, Hytest.
  split; [done|]. cbv zeta. rewrite <- Hidx. simpl.
  split.
  { change ind_test with (ind_train, ind_test).2.
    change ind_train with (ind_train, ind_test).1 at 2.
    rewrite Hidx. apply split_indices_perm. }
  eexists (_, _), (_, _), (_, _). simpl.
  split_and!.
  - rewrite lookup_insert_ne, lookup_insert_ne by done.
    by rewrite lookup_insert_eq.
  - rewrite lookup_insert_ne by done. by rewrite lookup_insert_eq.
  - by rewrite lookup_insert_eq.
  - done.
  - eapply Forall2_impl;
      [exact (Forall2_zip_with _ _ _ _ _ _ HXtrain Hytrain)|].
    intros i row (x & v & ? & ? & ->). eauto.
  - eapply Forall2_impl;
      [exact (Forall2_zip_with _ _ _ _ _ _ HXtest Hytest)|].
    intros i row (x & v & ? & ? & ->). eauto.
Qed.

End DatasetCell.

(** ** argparse: what is appended to a command line *)

Section ArgparseAppend.

Context {A : Type}.
Variable option_strings : list string.
Variable store : string -> string -> A -> option A.


Lemma parse_optional_exact flag :
  flag ∈ option_strings -> String.prefix "-" flag = true ->
  parse_optional option_strings flag = TOption flag None.
Proof.
  intros Hin Hdash. destruct flag as [|c rest]; [done|].
  unfold parse_optional. simpl in Hdash.
  destruct (Ascii.eqb_spec "-"%char c) as [<-|?]; [|by destruct c as [[] [] [] [] [] [] [] []]].
  rewrite bool_decide_eq_true_2 by done. simpl.
  by rewrite bool_decide_eq_true_2.
Qed.

(** An option that ends the command line has no value: the parser gives up. *)
Lemma parse_loop_dangling argv flag : forall pending ns,
  "--" ∉ argv -> flag ∈ option_strings -> String.prefix "-" flag = true ->
  flag <> "--" ->
  parse_loop option_strings store false pending (argv ++ [flag]) ns = None.
Proof.
  intros pending ns Hdd Hin Hdash Hne. revert pending ns Hdd.
  induction argv as [|a rest IH]; intros pending ns Hdd; simpl.
  - rewrite bool_decide_eq_false_2 by done.
    rewrite parse_optional_exact by done. by destruct pending.
  - apply not_elem_of_cons in Hdd as [Ha Hrest].
    rewrite bool_decide_eq_false_2 by done.
    destruct (parse_optional option_strings a) as [|o [v|]| |], pending as [p|];
      try done; try (by apply IH).
    + destruct (store p a ns) as [ns1|]; [|done]. by apply IH.
    + destruct (store o v ns) as [ns1|]; [|done]. by apply IH.
Qed.

End ArgparseAppend.


Lemma digits_int v : digits1 v = true -> int_of_string v = Some (digits_value 0 v).
Proof.
  intros Hd. unfold int_of_string. rewrite Hd.
  destruct v as [|c rest]; [done|].
  destruct (decide (c = "-"%char)) as [->|?]; [done|].
  destruct (decide (c = "+"%char)) as [->|?]; [done|].
  destruct c as [[] [] [] [] [] [] [] []]; try done.
Qed.


Section Dangling.

Context `{Sklearn}.

(** X9.  An option of a script left without its value at the end of the
    command line (which has no [--]) stops that script at once with
    [SystemExit], before it reads or writes anything. *)
Theorem dangling_option_exits (environ : gmap string string)
    (argv : list string) (flag : string) (w : world) :
  "--" ∉ argv ->
  (flag ∈ preprocessing.option_strings ->
   preprocessing.main (argv ++ [flag]) w = (Raise SystemExit, w)) /\
  (flag ∈ training.option_strings ->
   training.main environ (argv ++ [flag]) w = (Raise SystemExit, w)) /\
  (flag ∈ sklearn_pipeline.option_strings ->
   sklearn_pipeline.main environ (argv ++ [flag]) w = (Raise SystemExit, w)).
Proof.
  intros Hdd. split_and!; intros Hin.
  - unfold preprocessing.main, preprocessing._parse_args, parse_known_args.
    rewrite parse_loop_dangling; try done.
    all: unfold preprocessing.option_strings in Hin;
      repeat (apply elem_of_cons in Hin as [->|Hin]; [done|]);
      by apply elem_of_nil in Hin.
  - unfold training.main, training._parse_args, parse_known_args.
    rewrite parse_loop_dangling; try done.
    all: unfold training.option_strings in Hin;
      repeat (apply elem_of_cons in Hin as [->|Hin]; [done|]);
      by apply elem_of_nil in Hin.
  - unfold sklearn_pipeline.main, sklearn_pipeline._parse_args, parse_known_args.
    rewrite parse_loop_dangling; try done.
    all: unfold sklearn_pipeline.option_strings in Hin;
      repeat (apply elem_of_cons in Hin as [->|Hin]; [done|]);
      by apply elem_of_nil in Hin.
Qed.

End Dangling.

(** ** Decimal numbers *)

Lemma all_digits_app s t :
  all_digits (s +:+ t) = all_digits s && all_digits t.
Proof.
  induction s as [|c s IH]; [done|].
  change (String c s +:+ t) with (String c (s +:+ t)). simpl.
  by rewrite IH, andb_assoc.
Qed.

Lemma digits_value_app acc s t :
  digits_value acc (s +:+ t) = digits_value (digits_value acc s) t.
Proof.
  revert acc. induction s as [|c s IH]; intros acc; [done|].
  change (String c s +:+ t) with (String c (s +:+ t)). simpl. apply IH.
Qed.

Lemma pretty_N_char_value x :
  (x < 10)%N -> Z.of_nat (nat_of_ascii (pretty_N_char x)) - 48 = Z.of_N x.
Proof.
  intros Hx.
  assert (x = 0 \/ x = 1 \/ x = 2 \/ x = 3 \/ x = 4 \/ x = 5 \/ x = 6 \/ x = 7
          \/ x = 8 \/ x = 9)%N as Hcases by lia.
  by repeat (destruct Hcases as [->|Hcases]; [done|]); subst.
Qed.

Lemma string_app_assoc (s t u : string) : (s +:+ t) +:+ u = s +:+ (t +:+ u).
Proof.
  induction s as [|c s IH]; [done|].
  change (String c ((s +:+ t) +:+ u) = String c (s +:+ (t +:+ u))). by f_equal.
Qed.

(** The digits [pretty_N_go] puts in front of its accumulator read back as
    the number. *)
Lemma pretty_N_go_digits x s :
  exists p,
    pretty_N_go x s = p +:+ s /\ all_digits p = true /\
    ((0 < x)%N -> p <> "") /\
    forall acc, digits_value acc p = acc * 10 ^ Z.of_nat (String.length p) + Z.of_N x.
Proof.
  revert s. induction (N.lt_wf_0 x) as [x _ IH]; intros s.
  destruct (decide (0 < x)%N) as [Hpos|Hzero].
  - rewrite pretty_N_go_step by done.
    destruct (IH (x `div` 10)%N ltac:(by apply N.div_lt)
                (String (pretty_N_char (x `mod` 10)) s))
      as (p & Hp & Hdig & _ & Hval).
    exists (p +:+ String (pretty_N_char (x `mod` 10)) "").
    split_and!.
    + rewrite Hp. by rewrite string_app_assoc.
    + rewrite all_digits_app, Hdig. simpl.
      by rewrite pretty_N_char_digit.
    + intros _. by destruct p.
    + intros acc. rewrite digits_value_app, Hval. simpl.
      rewrite pretty_N_char_value by (apply N.mod_lt; lia).
      assert (String.length (p +:+ String (pretty_N_char (x `mod` 10)) "")
              = S (String.length p)) as ->.
      { clear. induction p as [|c p IHp]; [done|].
        change (String c p +:+ ?t) with (String c (p +:+ t)). simpl. by rewrite IHp. }
      rewrite Nat2Z.inj_succ, Z.pow_succ_r by lia.
      pose proof (N.div_mod x 10 ltac:(done)) as Hdm.
      rewrite N2Z.inj_div, N2Z.inj_mod in *.
      change (Z.of_N 10) with 10 in *.
      pose proof (Z.div_mod (Z.of_N x) 10 ltac:(done)). lia.
  - assert (x = 0%N) as -> by lia. rewrite pretty_N_go_0.
    exists "". split_and!; try done. intros acc. simpl. lia.
Qed.

Lemma pretty_N_digits (x : N) :
  digits1 (pretty x) = true /\ digits_value 0 (pretty x) = Z.of_N x.
Proof.
  unfold pretty, pretty_N. case_decide as Hx; [by subst|].
  destruct (pretty_N_go_digits x "") as (p & Hp & Hdig & Hne & Hval).
  assert (p +:+ "" = p) as Hnil.
  { clear. induction p as [|c p IHp]; [done|].
    change (String c (p +:+ "") = String c p). by f_equal. }
  rewrite Hp, Hnil. split.
  - unfold digits1. rewrite Hdig.
    rewrite bool_decide_eq_false_2; [done|]. apply Hne. lia.
  - rewrite Hval. lia.
Qed.

Lemma digits1_first_digit s :
  digits1 s = true -> exists c s', s = String c s' /\ is_digit c = true.
Proof.
  unfold digits1. destruct s as [|c s']; [done|]. simpl.
  intros Hd. apply andb_prop in Hd as [Hc _]. eauto.
Qed.

(** [int(str(z)) = z] *)
Lemma int_of_string_pretty (z : Z) : int_of_string (pretty z) = Some z.
Proof.
  destruct z as [|p|p]; [done| |].
  - change (pretty (Z.pos p)) with (pretty (N.pos p)).
    destruct (pretty_N_digits (N.pos p)) as [Hd Hv].
    rewrite (digits_int _ Hd), Hv. done.
  - change (pretty (Z.neg p)) with ("-" +:+ pretty (N.pos p)).
    destruct (pretty_N_digits (N.pos p)) as [Hd Hv].
    change ("-" +:+ pretty (N.pos p)) with (String "-"%char (pretty (N.pos p))).
    unfold int_of_string. rewrite Hd, Hv. done.
Qed.

(** A decimal number has no comma. *)
Lemma all_digits_no_comma s : all_digits s = true -> contains_char ","%char s = false.
Proof.
  induction s as [|c s IH]; [done|]. simpl.
  intros Hd. apply andb_prop in Hd as [Hc Hs]. rewrite IH by done.
  rewrite bool_decide_eq_false_2; [done|]. by intros ->.
Qed.

Lemma pretty_Z_no_comma (z : Z) : contains_char ","%char (pretty z) = false.
Proof.
  destruct z as [|p|p]; [done| |].
  - change (pretty (Z.pos p)) with (pretty (N.pos p)).
    destruct (pretty_N_digits (N.pos p)) as [Hd _].
    apply all_digits_no_comma. unfold digits1 in Hd.
    by apply andb_prop in Hd as [_ Hd].
  - change (pretty (Z.neg p)) with (String "-"%char (pretty (N.pos p))).
    destruct (pretty_N_digits (N.pos p)) as [Hd _]. simpl.
    apply all_digits_no_comma. unfold digits1 in Hd.
    by apply andb_prop in Hd as [_ Hd].
Qed.

(** ** Splitting what was joined *)

Lemma split_piece (p rest : string) :
  contains_char ","%char p = false ->
  split_comma_space (p +:+ ", " +:+ rest) = p :: split_comma_space rest.
Proof.
  induction p as [|c p IH]; intros Hp.
  - done.
  - simpl in Hp. apply orb_false_elim in Hp as [Hc Hp].
    apply bool_decide_eq_false in Hc.
    change (String c p +:+ ", " +:+ rest) with (String c (p +:+ ", " +:+ rest)).
    simpl. rewrite (bool_decide_eq_false_2 (c = ","%char)) by done. simpl.
    rewrite IH by done.
    by destruct (p +:+ ", " +:+ rest).
Qed.

Lemma split_last_piece (p : string) :
  contains_char ","%char p = false -> split_comma_space p = [p].
Proof.
  induction p as [|c p IH]; intros Hp; [done|].
  simpl in Hp. apply orb_false_elim in Hp as [Hc Hp].
  apply bool_decide_eq_false in Hc. simpl.
  rewrite (bool_decide_eq_false_2 (c = ","%char)) by done. simpl.
  rewrite IH by done. by destruct p.
Qed.

Lemma split_join (pieces : list string) :
  pieces <> [] ->
  Forall (fun p => contains_char ","%char p = false) pieces ->
  split_comma_space (join_comma_space pieces) = pieces.
Proof.
  intros Hne Hall. induction Hall as [|p rest Hp Hrest IH]; [done|].
  destruct rest as [|q rest].
  - simpl. by apply split_last_piece.
  - change (join_comma_space (p :: q :: rest))
      with (p +:+ ", " +:+ join_comma_space (q :: rest)).
    rewrite split_piece by done. f_equal. by apply IH.
Qed.

Lemma drop_last_app (s : string) (c : ascii) : drop_last (s +:+ String c "") = s.
Proof.
  induction s as [|d s IH]; [done|].
  change (String d s +:+ String c "") with (String d (s +:+ String c "")).
  simpl. rewrite IH. by destruct s.
Qed.

Lemma strip_ends_short text :
  (String.length text <= 2)%nat -> strip_ends text = "".
Proof.
  destruct text as [|a [|b [|c text]]]; simpl; try done. lia.
Qed.

Lemma mapR_int_pretty (l : list Z) :
  mapR (fun x => of_option ValueError (int_of_string x)) (pretty <$> l) = Ok l.
Proof.
  induction l as [|z l IH]; [done|]. rewrite fmap_cons. cbn [mapR].
  rewrite int_of_string_pretty. cbn [of_option]. by rewrite IH.
Qed.

(** X10.  The predictions cell reads back any non-empty list of integers
    from its bracketed, comma-and-space separated decimal text, and fails
    with [ValueError] on a text of at most two characters, such as the empty
    list [[]]. *)
Theorem read_predictions_roundtrip :
  (forall l : list Z,
     l <> [] -> batch.read_predictions (batch.predictions_text l) = Ok l) /\
  (forall text : string,
     (String.length text <= 2)%nat ->
     batch.read_predictions text = Raise ValueError).
Proof.
  split.
  - intros l Hne. unfold batch.read_predictions, batch.predictions_text.
    change ("[" +:+ ?s) with (String "["%char s). simpl strip_ends.
    rewrite drop_last_app. rewrite split_join.
    + apply mapR_int_pretty.
    + by destruct l.
    + apply Forall_fmap, Forall_forall. intros z _. apply pretty_Z_no_comma.
  - intros text Hlen. unfold batch.read_predictions.
    by rewrite strip_ends_short.
Qed.

Section SampleCell.

Context `{Sklearn} `{!SklearnLaws}.


End SampleCell.

(** * The small instance satisfies the assumptions; the theorems at work *)

Lemma toy_laws : @SklearnLaws toy.carriers toy.sklearn.
Proof.
  split.
  - intros g n. simpl. destruct (Nat.even g); [|done].
    apply reverse_Permutation.
  - intros s row r. simpl. case_bool_decide as Hlen; [|done].
    intros Hr. inversion Hr. rewrite length_zip_with. lia.
  - done.
  - done.
Qed.

#[local] Existing Instance toy.carriers.
#[local] Existing Instance toy.sklearn.
#[local] Existing Instance toy_laws.

Lemma toy_first_stage :
  preprocessing.main notebook.local_preprocessing toy.w0 = (Ok tt, toy.w1).
Proof. vm_compute. reflexivity. Qed.

Lemma toy_second_stage :
  training.main ∅ notebook.local_training toy.w1 = (Ok tt, toy.w2).
Proof. vm_compute. reflexivity. Qed.

Lemma inference_transform_is_the_artifact_witness :
  exists model,
    training.model_fn "./temp/" toy.w2 =
    (Ok (Pipeline
           [("preproc", Pipeline [("scaler", StandardScaler (Some [10; 20]))]);
            ("model", model)]), toy.w2).
Proof.
  destruct (inference_transform_is_the_artifact
              notebook.local_preprocessing notebook.local_training ∅
              toy.w0 toy.w1 toy.w2
              {| preprocessing.filepath := "/tmp/";
                 preprocessing.filename := "data.csv";
                 preprocessing.outputpath := "./temp/" |}
              (training.with_dirs (Some "./temp/") (Some "./temp/train")
                 (Some "./temp/test") (Some "./temp/pipeline")
                 (training.defaults ∅))
              "./temp/")
    as (artifact & model & Hfile & _ & _ & Hfn);
    try (vm_compute; reflexivity).
  vm_compute in Hfile. injection Hfile as <-.
  exists model. exact Hfn.
Defined.



Lemma seeded_split_is_reproducible_witness :
  np_random toy.w0 <> np_random toy.w0' /\
  (preprocessing.main notebook.local_preprocessing toy.w0).1
    = (preprocessing.main notebook.local_preprocessing toy.w0').1 /\
  fs (preprocessing.main notebook.local_preprocessing toy.w0).2
    = fs (preprocessing.main notebook.local_preprocessing toy.w0').2.
Proof.
  split; [by vm_compute|].
  apply (seeded_split_is_reproducible notebook.local_preprocessing [] []
           toy.w0 toy.w0').
  reflexivity.
Defined.

Lemma reported_accuracy_in_unit_interval_witness :
  exists q, stdout toy.w2 = [Finite q] /\ (0 <= q)%Q /\ (q <= 1)%Q.
Proof.
  destruct (reported_accuracy_in_unit_interval ∅ notebook.local_training)
    as [Htraining _].
  destruct (Htraining toy.w1) as (printed & Hout & Hvalid & _ & Hone).
  specialize (Hone tt ltac:(vm_compute; reflexivity)).
  destruct printed as [|x [|? ?]]; try done.
  inversion Hvalid as [|? ? Hx _]; subst.
  destruct x as [q|]; [|done].
  exists q. split; [|exact Hx]. exact Hout.
Defined.

Lemma artifact_layout_witness :
  dom (fs toy.w2) =
  dom (fs toy.w0) ∪
  {[ "./temp/train/train.csv"; "./temp/test/test.csv";
     "./temp/pipeline/preproc-pipeline.joblib" ]} ∪
  {[ "./temp/model.joblib"; "./temp/preproc.joblib" ]}.
Proof.
  destruct (artifact_layout notebook.local_preprocessing notebook.local_training
              ∅ toy.w0 toy.w1 toy.w2 toy_first_stage toy_second_stage)
    as (pa & ta & d & Hpa & Hta & Hd & Hdom1 & Hdom2 & _).
  vm_compute in Hpa. injection Hpa as <-.
  vm_compute in Hta. injection Hta as <-.
  vm_compute in Hd. injection Hd as <-.
  rewrite Hdom2, Hdom1. reflexivity.
Defined.

Lemma missing_input_is_fatal_witness :
  preprocessing.main notebook.local_preprocessing toy.w_empty
    = (Raise FileNotFoundError, toy.w_empty) /\
  preprocessing.main notebook.local_preprocessing toy.w_unlabelled
    = (Raise KeyError, toy.w_unlabelled).
Proof.
  assert (preprocessing._parse_args notebook.local_preprocessing
          = Some {| preprocessing.filepath := "/tmp/";
                    preprocessing.filename := "data.csv";
                    preprocessing.outputpath := "./temp/" |}) as Hargs
    by (vm_compute; reflexivity).
  split.
  - apply (missing_input_is_fatal _ _ toy.w_empty Hargs). reflexivity.
  - eapply (missing_input_is_fatal _ _ toy.w_unlabelled Hargs).
    + vm_compute. reflexivity.
    + reflexivity.
    + vm_compute. reflexivity.
    + vm_compute. intros Hin. by repeat (inversion Hin as [|? ? ? Hin']; subst;
        clear Hin; rename Hin' into Hin).
Defined.


Lemma handoff_reproduces_evaluation_witness :
  exists unit pred,
    training.model_fn "./temp/" toy.w2 = (Ok unit, toy.w2) /\
    pred = [1; 0] /\
    training.predict_fn [[20; 30]] unit = Ok [1] /\
    training.predict_fn [[14; 30]] unit = Ok [0].
Proof.
  destruct (handoff_reproduces_evaluation
              notebook.local_preprocessing notebook.local_training ∅
              toy.w0 toy.w1 toy.w2
              {| preprocessing.filepath := "/tmp/";
                 preprocessing.filename := "data.csv";
                 preprocessing.outputpath := "./temp/" |}
              (training.with_dirs (Some "./temp/") (Some "./temp/train")
                 (Some "./temp/test") (Some "./temp/pipeline")
                 (training.defaults ∅))
              "./temp/")
    as (preproc & model & unit & b & t & df & X & test_df & X_test & y_test
        & pred & acc & Hpre & Hmod & Hunit & Hfn & _ & Hread & HXtest & _
        & Hpred & _ & _ & Hb & Ht & Hdf & HX & Hsame);
    try (vm_compute; reflexivity).
  vm_compute in Hb. injection Hb as <-.
  vm_compute in Ht. injection Ht as <-.
  vm_compute in Hdf. injection Hdf as <-.
  vm_compute in HX. injection HX as <-.
  vm_compute in Hmod. injection Hmod as <-.
  vm_compute in Hread. injection Hread as <-.
  vm_compute in HXtest. injection HXtest as <-.
  vm_compute in Hpred. injection Hpred as <-.
  exists unit, [1; 0]. split; [exact Hfn|]. split; [reflexivity|].
  destruct (Hsame 0%nat 4%nat [20; 30]) as (l0 & Hl0 & Hp0);
    [vm_compute; reflexivity..|].
  destruct (Hsame 1%nat 3%nat [14; 30]) as (l1 & Hl1 & Hp1);
    [vm_compute; reflexivity..|].
  injection Hl0 as <-. injection Hl1 as <-. by split.
Defined.

Lemma hyperparameter_defaults_witness :
  exists a, training._parse_args ∅ notebook.local_training = Some a /\
    training.n_estimators a = 10 /\ training.min_samples_leaf a = 3.
Proof.
  destruct (hyperparameter_defaults ∅ notebook.local_training) as (Hdefault & _).
  eexists. split; [vm_compute; reflexivity|].
  apply Hdefault; [| |vm_compute; reflexivity].
  - unfold supplies, notebook.local_training. intros Hex.
    repeat (apply Exists_cons in Hex as [[v Hv]|Hex]; [by vm_compute in Hv|]).
    by apply Exists_nil in Hex.
  - unfold supplies, notebook.local_training. intros Hex.
    repeat (apply Exists_cons in Hex as [[v Hv]|Hex]; [by vm_compute in Hv|]).
    by apply Exists_nil in Hex.
Defined.

(** The unit scales whatever it is given: on a row of [test.csv], which the
    first stage has scaled already, it scales again, and the label can
    differ from the one of the evaluation (here 0 instead of 1). *)
Example reloaded_unit_scales_again :
  exists unit,
    training.model_fn "./temp/" toy.w2 = (Ok unit, toy.w2) /\
    fs toy.w2 !! "./temp/test/test.csv"
      = Some (toy.CsvFile (["0"; "1"; "y"], [[10; 10; 1]; [4; 10; 0]])) /\
    training.predict_fn [[20; 30]] unit = Ok [1] /\
    training.predict_fn [[10; 10]] unit = Ok [0].
Proof. eexists. split; [vm_compute; reflexivity|]. by vm_compute. Qed.

(** The second stage does read the global generator: another state of it
    gives another forest. *)
Example unseeded_forest_depends_on_generator :
  fs (training.main ∅ notebook.local_training toy.w1).2 !! "./temp/model.joblib"
  <> fs (training.main ∅ notebook.local_training
           {| fs := fs toy.w1; np_random := 8%nat; stdout := [] |}).2
       !! "./temp/model.joblib".
Proof. by vm_compute. Qed.

(** ** The further properties at work on the small instance *)

Lemma monolithic_handoff_witness :
  exists pipe w',
    sklearn_pipeline.main ∅ notebook.local_monolithic toy.w_step0 = (Ok tt, w') /\
    sklearn_pipeline.model_fn "." w' = (Ok pipe, w') /\
    sklearn_pipeline.predict_fn [[20; 30]; [14; 30]] pipe = Ok [1; 1] /\
    stdout w' = [Finite (1 # 2)].
Proof.
  set (w' := (sklearn_pipeline.main ∅ notebook.local_monolithic toy.w_step0).2).
  assert (sklearn_pipeline.main ∅ notebook.local_monolithic toy.w_step0
          = (Ok tt, w')) as Hrun by (vm_compute; reflexivity).
  destruct (monolithic_handoff ∅ notebook.local_monolithic toy.w_step0 w' Hrun)
    as (a & dtrain & dtest & d & train_df & test_df & X_train & y_train & X_test
        & y_test & s & T & f & pred & acc & Ha & _ & Hdtest & Hd & _ & Htest & _
        & _ & HXtest & Hytest & _ & _ & _ & _ & Hfn & Hpred & Hacc & Hout & _).
  vm_compute in Ha. injection Ha as <-.
  vm_compute in Hd. injection Hd as <-.
  vm_compute in Hdtest. injection Hdtest as <-.
  vm_compute in Htest. injection Htest as <-.
  vm_compute in HXtest. injection HXtest as <-.
  vm_compute in Hytest. injection Hytest as <-.
  eexists _, w'. split; [exact Hrun|]. split; [exact Hfn|].
  split; [|by vm_compute].
  etrans; [exact Hpred|].
  vm_compute in Hfn. injection Hfn as Hs Hf. subst s f.
  by vm_compute.
Defined.

Lemma training_without_model_dir_witness :
  let run :=
    training.main ∅
      ["--train"; "./temp/train"; "--test"; "./temp/test";
       "--pipeline"; "./temp/pipeline"] toy.w1 in
  run.1 = Raise TypeError /\ fs run.2 = fs toy.w1 /\
  stdout run.2 = [Finite (2 # 2)].
Proof.
  cbv zeta.
  destruct (training_without_model_dir (∅ : gmap string string)
              ["--train"; "./temp/train"; "--test"; "./temp/test";
               "--pipeline"; "./temp/pipeline"]
              (training.with_dirs None (Some "./temp/train") (Some "./temp/test")
                 (Some "./temp/pipeline") (training.defaults (∅ : gmap string string)))
              toy.w1)
    as (_ & Hfs & Herr); [vm_compute; reflexivity|reflexivity|].
  split; [|split; [exact Hfs|by vm_compute]].
  apply Herr. by vm_compute.
Defined.



Lemma split_partitions_inhabited_witness :
  exists train test : list string * list (list Z),
    fs toy.w1 !! "./temp/train/train.csv" = Some (toy.CsvFile train) /\
    fs toy.w1 !! "./temp/test/test.csv" = Some (toy.CsvFile test) /\
    (1 <= length test.2)%nat /\ (length test.2 <= length train.2)%nat.
Proof.
  destruct (split_partitions_inhabited notebook.local_preprocessing
              toy.w0 toy.w1 toy_first_stage)
    as (args & train & test & Hargs & Htrain & Htest & Hone & Hle).
  vm_compute in Hargs. injection Hargs as <-.
  exists train, test. split; [exact Htrain|]. split; [exact Htest|]. by split.
Defined.


Lemma dataset_cell_keeps_rows_and_labels_together_witness :
  exists train test : list string * list (list Z),
    fs toy.w_step0 !! "/tmp/train.csv" = Some (toy.CsvFile train) /\
    fs toy.w_step0 !! "/tmp/test.csv" = Some (toy.CsvFile test) /\
    train.2 = [[9; 18; 1]; [12; 25; 0]; [10; 20; 1]] /\
    test.2 = [[20; 30; 1]; [14; 30; 0]].
Proof.
  destruct (dataset_cell_keeps_rows_and_labels_together
              (H := toy.carriers) (H0 := toy.sklearn)
              [[10; 20]; [12; 25]; [9; 18]; [14; 30]; [20; 30]] [1; 0; 1; 0; 1]
              toy.w_empty toy.w_step0)
    as (_ & _ & data & train & test & _ & Htrain & Htest & _);
    [vm_compute; reflexivity|].
  exists train, test. split; [exact Htrain|]. split; [exact Htest|].
  vm_compute in Htrain. injection Htrain as <-.
  vm_compute in Htest. injection Htest as <-. by split.
Defined.


Lemma dangling_option_exits_witness :
  training.main ∅ (notebook.local_training ++ ["--n-estimators"]) toy.w1
  = (Raise SystemExit, toy.w1).
Proof.
  destruct (dangling_option_exits ∅ notebook.local_training "--n-estimators" toy.w1)
    as (_ & Htraining & _).
  - unfold notebook.local_training. intros Hin.
    repeat (apply elem_of_cons in Hin as [Heq|Hin]; [done|]).
    by apply elem_of_nil in Hin.
  - apply Htraining. unfold training.option_strings. apply elem_of_cons. by left.
Defined.

Lemma read_predictions_roundtrip_witness :
  batch.read_predictions "[1, 0, -12, 7]" = Ok [1; 0; -12; 7] /\
  batch.read_predictions "[]" = Raise ValueError.
Proof.
  destruct read_predictions_roundtrip as [Hround Hshort]. split.
  - apply (Hround [1; 0; -12; 7]). done.
  - apply Hshort. simpl. lia.
Defined.

